(** * Conventional Commit Helper: the formatter, the schema loader and the
      message handler, embedded from the TypeScript sources

    - [src/commitBuilder.ts]  -> [CommitBuilder] (as typed),
                                 [CommitBuilderJS] (as it runs on an
                                 unchecked [data as FormData]) and
                                 [CommitBuilderStore] (over a store of
                                 objects)
    - [src/schemaManager.ts]  -> [SchemaManager]
    - [src/messageHandler.ts] -> [MessageHandler]

    JavaScript strings are sequences of UTF-16 code units, JavaScript values
    are a tagged union, exceptions are an explicit [Throw] result and the
    calls a method makes on its collaborators (output channel, webview,
    file system, builder) are recorded, in order, in a trace. *)

From Stdlib Require Import String Ascii List NArith ZArith Bool Lia.
From Stdlib Require Import DecimalString.
From Stdlib Require Floats.SpecFloat.
Import ListNotations.

Local Open Scope list_scope.

(* ================================================================= *)
(** ** JavaScript strings *)

(** A string is its sequence of UTF-16 code units. *)
Definition jsstring : Type := list N.

(** An ASCII literal of the source, as code units. *)
Definition str (s : String.string) : jsstring :=
  map N_of_ascii (list_ascii_of_string s).
Arguments str s%_string.

Fixpoint eqb_str (a b : jsstring) : bool :=
  match a, b with
  | [], [] => true
  | x :: a', y :: b' => N.eqb x y && eqb_str a' b'
  | _, _ => false
  end.

(** ToBoolean on a string: only the empty string is falsy. *)
Definition truthy_str (s : jsstring) : bool :=
  match s with [] => false | _ :: _ => true end.

(** ECMAScript WhiteSpace and LineTerminator code points, the characters
    [String.prototype.trim] strips. All of them are in the Basic
    Multilingual Plane, so the test is per code unit. *)
Definition is_white_space (c : N) : bool :=
  match c with
  | 9 | 10 | 11 | 12 | 13 | 32 | 160 | 5760
  | 8232 | 8233 | 8239 | 8287 | 12288 | 65279 => true
  | _ => N.leb 8192 c && N.leb c 8202
  end%N.

Fixpoint trimStart (s : jsstring) : jsstring :=
  match s with
  | [] => []
  | c :: r => if is_white_space c then trimStart r else s
  end.

Definition trimEnd (s : jsstring) : jsstring := rev (trimStart (rev s)).

(** [String.prototype.trim]. *)
Definition trim (s : jsstring) : jsstring := trimEnd (trimStart s).

(** Decimal rendering of an array length inside a template literal. *)
Definition nat_to_str (n : nat) : jsstring :=
  str (NilEmpty.string_of_uint (Nat.to_uint n)).

(* ================================================================= *)
(** ** JavaScript values *)

(** The values that reach the program: results of [JSON.parse] and payloads
    cloned from the webview. Numbers are IEEE 754 binary64 values; an
    object is its own properties in insertion order (none of the property
    names the program reads lives on a prototype). *)
#[warnings="-register-all"]
Inductive JSValue : Type :=
| JUndefined
| JNull
| JBool (b : bool)
| JNumber (x : SpecFloat.spec_float)
| JString (s : jsstring)
| JArray (elems : list JSValue)
| JObject (props : list (jsstring * JSValue)).

(** ToBoolean. *)
Definition truthy (v : JSValue) : bool :=
  match v with
  | JUndefined | JNull => false
  | JBool b => b
  | JNumber (SpecFloat.S754_zero _) | JNumber SpecFloat.S754_nan => false
  | JNumber _ => true
  | JString s => truthy_str s
  | JArray _ | JObject _ => true
  end.

Inductive TypeTag := T_undefined | T_object | T_boolean | T_number | T_string.

(** The [typeof] operator. *)
Definition typeof (v : JSValue) : TypeTag :=
  match v with
  | JUndefined => T_undefined
  | JNull => T_object
  | JBool _ => T_boolean
  | JNumber _ => T_number
  | JString _ => T_string
  | JArray _ | JObject _ => T_object
  end.

Definition is_object_tag (t : TypeTag) : bool :=
  match t with T_object => true | _ => false end.

Definition is_string_tag (t : TypeTag) : bool :=
  match t with T_string => true | _ => false end.

Fixpoint lookup (k : jsstring) (props : list (jsstring * JSValue)) : JSValue :=
  match props with
  | [] => JUndefined
  | (k', v) :: rest => if eqb_str k k' then v else lookup k rest
  end.

(** Errors the runtime raises. *)
Inductive Exn : Type :=
| TypeError_nullish (prop : jsstring)        (* reading [prop] of null or undefined *)
| TypeError_not_a_function (prop : jsstring) (* calling [v.prop] when it is not callable *)
| SyntaxError_JSON                           (* [JSON.parse] on malformed text *)
| IOError (path : jsstring)                  (* [fs.readFileSync] failing *)
| HostError (message : jsstring).            (* an error raised by the editor's API *)

Inductive Result (A : Type) : Type :=
| Ok (a : A)
| Throw (e : Exn).
Arguments Ok {A} a.
Arguments Throw {A} e.

(** Property read [v.k] for the names the program uses ([types], [id],
    [label], [command], [data], [type], [scope], [subject], [body]): an
    own property of an object, [undefined] on arrays and primitives, a
    TypeError on [null] and [undefined]. *)
Definition get (v : JSValue) (k : jsstring) : Result JSValue :=
  match v with
  | JObject props => Ok (lookup k props)
  | JUndefined | JNull => Throw (TypeError_nullish k)
  | _ => Ok JUndefined
  end.

(** [v.k] when [v] is already known not to be null or undefined. *)
Definition field (v : JSValue) (k : jsstring) : JSValue :=
  match v with
  | JObject props => lookup k props
  | _ => JUndefined
  end.

(** Method call [v.trim()]. Values are data, so only a string has a
    callable [trim]. *)
Definition call_trim (v : JSValue) : Result jsstring :=
  match v with
  | JString s => Ok (trim s)
  | JUndefined | JNull => Throw (TypeError_nullish (str "trim"))
  | _ => Throw (TypeError_not_a_function (str "trim"))
  end.

(* ================================================================= *)
(** ** Services of the JavaScript runtime and of Node

    Functions the program calls and does not define. The development is
    parametric in them; [Reference.platform] below gives an instance. *)
Class Platform : Type := {
  (** [String.prototype.toLowerCase] *)
  toLowerCase : jsstring -> jsstring;
  (** [JSON.parse]; [None] when it throws a SyntaxError *)
  JSON_parse : jsstring -> option JSValue;
  (** [path.join] *)
  path_join : list jsstring -> jsstring;
  (** conversion of a value that is not a string inside a template literal *)
  ToString : JSValue -> jsstring;
  (** [error.message] *)
  error_message : Exn -> jsstring
}.

(** [`${v}`] *)
Definition template `{Platform} (v : JSValue) : jsstring :=
  match v with
  | JString s => s
  | _ => ToString v
  end.

(* ================================================================= *)
(** ** src/commitBuilder.ts, as typed *)

Module CommitBuilder.

Record FormData : Type := {
  type : jsstring;
  scope : jsstring;
  subject : jsstring;
  body : jsstring
}.

Section Methods.
Context `{Platform}.

Definition formatHeader (type scope subject : jsstring) : jsstring :=
  let cleanType := toLowerCase (trim type) in
  let cleanScope := trim scope in
  let cleanSubject := trim subject in
  if truthy_str cleanScope
  then cleanType ++ str "(" ++ cleanScope ++ str "): " ++ cleanSubject
  else cleanType ++ str ": " ++ cleanSubject.

Definition formatBody (body : jsstring) : jsstring := trim body.

Definition buildCommitMessage (formData : FormData) : jsstring :=
  let header :=
    formatHeader (type formData) (scope formData) (subject formData) in
  if truthy_str (body formData) && truthy_str (trim (body formData))
  then
    let body := formatBody (body formData) in
    header ++ [10; 10]%N ++ body
  else header.

End Methods.
End CommitBuilder.

(* ================================================================= *)
(** ** Exceptions and traces *)

Definition bindR {A B : Type} (r : Result A) (k : A -> Result B) : Result B :=
  match r with
  | Ok a => k a
  | Throw e => Throw e
  end.

Notation "'let?' x ':=' r 'in' k" := (bindR r (fun x => k))
  (at level 10, x name, r at level 100, k at level 200).

(** What a method does to its collaborators, in program order. [Send] and
    [Build] record that the method was entered, the way a spy on
    [sendToWebview] or on [buildCommitMessage] would. *)
Inductive Event : Type :=
| Log (line : jsstring)                        (* outputChannel.appendLine(line) *)
| ConsoleError (error : Exn)                   (* console.error('Error loading schema:', error) *)
| ExistsSync (path : jsstring)                 (* fs.existsSync(path) *)
| ReadFileSync (path : jsstring)               (* fs.readFileSync(path, 'utf-8') *)
| Send (command : jsstring) (data : JSValue)   (* this.sendToWebview(command, data) *)
| PostMessage (command : jsstring) (data : JSValue)
                                               (* this.panel.webview.postMessage({command, data}) *)
| Build (formData : JSValue).                  (* this.commitBuilder.buildCommitMessage(formData) *)

Definition Trace : Type := list Event.

(** A computation: the events it performed and how it ended. *)
Definition M (A : Type) : Type := (Trace * Result A)%type.

Definition ret {A : Type} (a : A) : M A := ([], Ok a).

Definition throw {A : Type} (e : Exn) : M A := ([], Throw e).

Definition emit (ev : Event) : M unit := ([ev], Ok tt).

Definition lift {A : Type} (r : Result A) : M A := ([], r).

Definition bind {A B : Type} (m : M A) (k : A -> M B) : M B :=
  match m with
  | (t, Ok a) => let (t', r) := k a in (t ++ t', r)
  | (t, Throw e) => (t, Throw e)
  end.

(** [try { m } catch (error) { handler error }] *)
Definition try_catch {A : Type} (m : M A) (handler : Exn -> M A) : M A :=
  match m with
  | (t, Ok a) => (t, Ok a)
  | (t, Throw e) => let (t', r) := handler e in (t ++ t', r)
  end.

Notation "x <- m ;; k" := (bind m (fun x => k))
  (at level 61, m at next level, right associativity).
Notation "m ;; k" := (bind m (fun _ => k))
  (at level 61, right associativity).

(* ================================================================= *)
(** ** src/commitBuilder.ts, as it runs

    [handleSubmitForm] passes on [data as FormData], an unchecked cast, so
    at run time the four fields are whatever the payload holds. The methods
    perform no event: their type has no trace. *)

Module CommitBuilderJS.
Section Methods.
Context `{Platform}.

Definition formatHeader (type scope subject : JSValue) : Result jsstring :=
  let? trimmedType := call_trim type in
  let cleanType := toLowerCase trimmedType in
  let? cleanScope := call_trim scope in
  let? cleanSubject := call_trim subject in
  if truthy_str cleanScope
  then Ok (cleanType ++ str "(" ++ cleanScope ++ str "): " ++ cleanSubject)
  else Ok (cleanType ++ str ": " ++ cleanSubject).

Definition formatBody (body : JSValue) : Result jsstring := call_trim body.

Definition buildCommitMessage (formData : JSValue) : Result jsstring :=
  let? type := get formData (str "type") in
  let? scope := get formData (str "scope") in
  let? subject := get formData (str "subject") in
  let? header := formatHeader type scope subject in
  let? bodyTested := get formData (str "body") in
  let? hasBody :=
    if truthy bodyTested
    then (let? bodyTrimmed := get formData (str "body") in
          let? t := call_trim bodyTrimmed in
          Ok (truthy_str t))
    else Ok false in
  if hasBody
  then
    let? bodyPassed := get formData (str "body") in
    let? body := formatBody bodyPassed in
    Ok (header ++ [10; 10]%N ++ body)
  else Ok header.

End Methods.
End CommitBuilderJS.

(* ================================================================= *)
(** ** src/commitBuilder.ts, over a store of objects

    The form data reaches [buildCommitMessage] as a reference to an object
    that its caller still holds. Here objects live in a store, a method is
    a function from the store to the store it leaves and its result, and
    reading and writing a property are the operations on the store. The
    builder is written with the property reads it performs, in order; the
    source has no assignment to a property. [formatHeader] and [formatBody]
    receive values, not references, and are the run-time methods above. *)

Module CommitBuilderStore.

Definition Ref : Type := nat.

(** The own properties of the object behind each reference. *)
Definition Store : Type := Ref -> list (jsstring * JSValue).

Definition S (A : Type) : Type := Store -> Store * Result A.

Definition retS {A : Type} (a : A) : S A := fun st => (st, Ok a).

Definition bindS {A B : Type} (m : S A) (k : A -> S B) : S B :=
  fun st =>
    match m st with
    | (st', Ok a) => k a st'
    | (st', Throw e) => (st', Throw e)
    end.

Definition liftS {A : Type} (r : Result A) : S A := fun st => (st, r).

(** [ref.k] *)
Definition readProp (ref : Ref) (k : jsstring) : S JSValue :=
  fun st => (st, Ok (lookup k (st ref))).

(** [ref.k = v] *)
Definition writeProp (ref : Ref) (k : jsstring) (v : JSValue) : S unit :=
  fun st =>
    (fun r => if Nat.eqb r ref then (k, v) :: st r else st r, Ok tt).

Notation "x <~ m ;; k" := (bindS m (fun x => k))
  (at level 61, m at next level, right associativity).

Section Methods.
Context `{Platform}.

Definition buildCommitMessage (formData : Ref) : S jsstring :=
  type <~ readProp formData (str "type") ;;
  scope <~ readProp formData (str "scope") ;;
  subject <~ readProp formData (str "subject") ;;
  header <~ liftS (CommitBuilderJS.formatHeader type scope subject) ;;
  bodyTested <~ readProp formData (str "body") ;;
  hasBody <~
    (if truthy bodyTested
     then
       bodyTrimmed <~ readProp formData (str "body") ;;
       t <~ liftS (call_trim bodyTrimmed) ;;
       retS (truthy_str t)
     else retS false) ;;
  if (hasBody : bool)
  then
    bodyPassed <~ readProp formData (str "body") ;;
    body <~ liftS (CommitBuilderJS.formatBody bodyPassed) ;;
    retS (header ++ [10; 10]%N ++ body)
  else retS header.

End Methods.
End CommitBuilderStore.

(* ================================================================= *)
(** ** src/schemaManager.ts *)

Module SchemaManager.

(** What [fs] finds at a path. [Unreadable] is an entry that exists and
    whose read fails (a directory, a file without read permission). *)
Inductive FileState : Type :=
| Absent
| Unreadable
| Content (text : jsstring).

(** The editor and the file system as [loadSchema] sees them during one
    call: [vscode.workspace.workspaceFolders] (the [fsPath] of each folder,
    or undefined), [context.extensionPath], and the files. *)
Record Host : Type := {
  workspaceFolders : option (list jsstring);
  extensionPath : jsstring;
  file : jsstring -> FileState
}.

Definition existsSync (host : Host) (path : jsstring) : M bool :=
  emit (ExistsSync path) ;;
  ret (match file host path with Absent => false | _ => true end).

Definition readFileSync (host : Host) (path : jsstring) : M jsstring :=
  emit (ReadFileSync path) ;;
  match file host path with
  | Content text => ret text
  | _ => throw (IOError path)
  end.

Definition validateSchema (schema : JSValue) : bool :=
  if negb (truthy schema) || negb (is_object_tag (typeof schema))
  then false
  else
    let schemaObj := schema in
    match field schemaObj (str "types") with
    | JArray types =>
        forallb
          (fun type =>
             if negb (truthy type) || negb (is_object_tag (typeof type))
             then false
             else
               let typeObj := type in
               if negb (truthy (field typeObj (str "id")))
                  || negb (is_string_tag (typeof (field typeObj (str "id"))))
               then false
               else if negb (truthy (field typeObj (str "label")))
                       || negb (is_string_tag (typeof (field typeObj (str "label"))))
               then false
               else true)
          types
    | _ => false
    end.

Definition commitType (id label : jsstring) : JSValue :=
  JObject [(str "id", JString id); (str "label", JString label)].

(** The labels open with a pictograph; its code units are given as the
    source file stores them. *)
Definition getDefaultSchema : JSValue :=
  JObject
    [(str "types",
      JArray
        [commitType (str "feat") ([8218; 250; 174]%N ++ str " Fitur Baru");
         commitType (str "fix") ([63743; 252; 234; 245]%N ++ str " Perbaikan Bug");
         commitType (str "docs") ([63743; 252; 236; 249]%N ++ str " Dokumentasi");
         commitType (str "style") ([63743; 252; 237; 209]%N ++ str " Styling");
         commitType (str "refactor")
                    ([8218; 244; 170; 212; 8719; 232]%N ++ str " Refactoring");
         commitType (str "test") ([8218; 250; 214]%N ++ str " Testing");
         commitType (str "chore") ([63743; 252; 238; 223]%N ++ str " Chore")])].

Section Methods.
Context `{Platform}.

Definition parse (text : jsstring) : M JSValue :=
  match JSON_parse text with
  | Some v => ret v
  | None => throw SyntaxError_JSON
  end.

(** The body of the [try] block: [Some schema] when it executes
    [return schema], [None] when control reaches the end of the block. *)
Definition loadSchema_try (host : Host) : M (option JSValue) :=
  fromWorkspace <-
    match workspaceFolders host with
    | Some (folder0 :: _) =>
        let workspacePath := folder0 in
        let schemaPath :=
          path_join [workspacePath; str ".vscode"; str "commit-types.json"] in
        found <- existsSync host schemaPath ;;
        if (found : bool)
        then
          schemaContent <- readFileSync host schemaPath ;;
          schema <- parse schemaContent ;;
          if validateSchema schema then ret (Some schema) else ret None
        else ret None
    | _ => ret None
    end ;;
  match fromWorkspace with
  | Some schema => ret (Some schema)
  | None =>
      let extensionSchemaPath :=
        path_join [extensionPath host; str "resources"; str "commit-types.json"] in
      found <- existsSync host extensionSchemaPath ;;
      if (found : bool)
      then
        schemaContent <- readFileSync host extensionSchemaPath ;;
        schema <- parse schemaContent ;;
        if validateSchema schema then ret (Some schema) else ret None
      else ret None
  end.

Definition loadSchema (host : Host) : M JSValue :=
  returned <-
    try_catch (loadSchema_try host)
              (fun error => emit (ConsoleError error) ;; ret None) ;;
  match returned with
  | Some schema => ret schema
  | None => ret getDefaultSchema
  end.

End Methods.
End SchemaManager.

(* ================================================================= *)
(** ** src/messageHandler.ts *)

Module MessageHandler.

(** The state of [this.panel] when a message is sent. *)
Inductive Panel : Type :=
| PanelMissing                 (* [this.panel] is falsy *)
| WebviewMissing               (* [this.panel.webview] is falsy *)
| WebviewFails (e : Exn)       (* [postMessage] throws *)
| WebviewLive.

Record Handler : Type := {
  panel : Panel;
  host : SchemaManager.Host    (* what [this.schemaManager] reads *)
}.

(** [v === 'literal'] *)
Definition strict_eq_str (v : JSValue) (literal : jsstring) : bool :=
  match v with
  | JString s => eqb_str s literal
  | _ => false
  end.

Section Methods.
Context `{Platform}.

Definition sendToWebview (h : Handler) (command : jsstring) (data : JSValue)
  : M unit :=
  emit (Send command data) ;;
  try_catch
    (match panel h with
     | PanelMissing | WebviewMissing =>
         emit (Log (str "Error: Cannot send message, webview is disposed"))
     | WebviewFails e => throw e
     | WebviewLive =>
         emit (PostMessage command data) ;;
         emit (Log (str "Sent message: " ++ command))
     end)
    (fun error =>
       let errorMessage := error_message error in
       emit (Log (str "Error sending message to webview: " ++ errorMessage))).

(** [schema.types.length], rendered for the template literal. *)
Definition types_length (schema : JSValue) : Result jsstring :=
  let? types := get schema (str "types") in
  match types with
  | JArray elems => Ok (nat_to_str (length elems))
  | JString s => Ok (nat_to_str (length s))
  | JUndefined | JNull => Throw (TypeError_nullish (str "length"))
  | _ => Ok (str "undefined")
  end.

Definition handleLoadSchema (h : Handler) : M unit :=
  try_catch
    (schema <- SchemaManager.loadSchema (host h) ;;
     count <- lift (types_length schema) ;;
     emit (Log (str "Schema loaded with " ++ count ++ str " types")) ;;
     sendToWebview h (str "schemaData") schema)
    (fun error =>
       let errorMessage := error_message error in
       emit (Log (str "Error loading schema: " ++ errorMessage)) ;;
       sendToWebview h (str "error")
                     (JString (str "Gagal memuat daftar type commit"))).

Definition handleWebviewReady (h : Handler) : M unit :=
  try_catch
    (emit (Log (str "Webview ready, loading schema...")) ;;
     handleLoadSchema h)
    (fun error =>
       let errorMessage := error_message error in
       emit (Log (str "Error in handleWebviewReady: " ++ errorMessage)) ;;
       sendToWebview h (str "error") (JString (str "Gagal memuat schema"))).

(** [!v || !v.trim()] for a required field. *)
Definition missing (v : JSValue) : M bool :=
  if negb (truthy v)
  then ret true
  else trimmed <- lift (call_trim v) ;; ret (negb (truthy_str trimmed)).

Definition handleSubmitForm (h : Handler) (data : JSValue) : M unit :=
  try_catch
    (if negb (truthy data) || negb (is_object_tag (typeof data))
     then
       emit (Log (str "Error: Invalid form data")) ;;
       sendToWebview h (str "error") (JString (str "Data form tidak valid"))
     else
       let formData := data in
       noType <- missing (field formData (str "type")) ;;
       if (noType : bool)
       then
         emit (Log (str "Error: Type is required")) ;;
         sendToWebview h (str "error") (JString (str "Type commit harus diisi"))
       else
         noSubject <- missing (field formData (str "subject")) ;;
         if (noSubject : bool)
         then
           emit (Log (str "Error: Subject is required")) ;;
           sendToWebview h (str "error")
                         (JString (str "Subject commit harus diisi"))
         else
           emit (Log (str "Building commit message...")) ;;
           emit (Build formData) ;;
           commitMessage <- lift (CommitBuilderJS.buildCommitMessage formData) ;;
           emit (Log (str "Commit message created:" ++ [10%N] ++ commitMessage)) ;;
           sendToWebview h (str "commitResult") (JString commitMessage))
    (fun error =>
       let errorMessage := error_message error in
       emit (Log (str "Error in handleSubmitForm: " ++ errorMessage)) ;;
       sendToWebview h (str "error")
                     (JString (str "Gagal membuat commit message"))).

Definition handleMessage (h : Handler) (message : JSValue) : M unit :=
  try_catch
    (if negb (truthy message) || negb (is_object_tag (typeof message))
        || negb (truthy (field message (str "command")))
     then
       emit (Log (str "Error: Invalid message format received")) ;;
       sendToWebview h (str "error") (JString (str "Format message tidak valid"))
     else
       let command := field message (str "command") in
       emit (Log (str "Received message: " ++ template command)) ;;
       if strict_eq_str command (str "webviewReady") then handleWebviewReady h
       else if strict_eq_str command (str "loadSchema") then handleLoadSchema h
       else if strict_eq_str command (str "submitForm")
       then handleSubmitForm h (field message (str "data"))
       else emit (Log (str "Warning: Unknown command: " ++ template command)))
    (fun error =>
       let errorMessage := error_message error in
       emit (Log (str "Error handling message: " ++ errorMessage)) ;;
       sendToWebview h (str "error")
                     (JString (str "Terjadi kesalahan: " ++ errorMessage))).

End Methods.

(** The messages handed to [sendToWebview], in order. *)
Definition sent (t : Trace) : list (jsstring * JSValue) :=
  flat_map (fun ev => match ev with Send c d => [(c, d)] | _ => [] end) t.

(** The messages that reached [postMessage], in order. *)
Definition posted (t : Trace) : list (jsstring * JSValue) :=
  flat_map (fun ev => match ev with PostMessage c d => [(c, d)] | _ => [] end) t.

(** The form data the commit builder was invoked on, in order. *)
Definition builds (t : Trace) : list JSValue :=
  flat_map (fun ev => match ev with Build fd => [fd] | _ => [] end) t.

(** The lines appended to the output channel, in order. *)
Definition logged (t : Trace) : list jsstring :=
  flat_map (fun ev => match ev with Log l => [l] | _ => [] end) t.

End MessageHandler.

(* ================================================================= *)
(** ** A reference platform

    One runtime to evaluate the program on: [JSON.parse] after the JSON
    grammar (ECMA-404), [toLowerCase] for text whose only cased characters
    are ASCII letters, [path.join] for segments that need no normalisation.
    The wording of error messages and the rendering of numbers belong to
    the engine; the ones here are one choice. *)

Module Reference.

Local Open Scope N_scope.

Definition lower_ascii (c : N) : N :=
  if N.leb 65 c && N.leb c 90 then c + 32 else c.

Definition toLowerCase (s : jsstring) : jsstring := map lower_ascii s.

Fixpoint join_with (sep : jsstring) (segments : list jsstring) : jsstring :=
  match segments with
  | [] => []
  | [x] => x
  | x :: rest => x ++ sep ++ join_with sep rest
  end.

Definition path_join (segments : list jsstring) : jsstring :=
  join_with (str "/") segments.

(** *** JSON text *)

Definition is_json_ws (c : N) : bool :=
  match c with 32 | 9 | 10 | 13 => true | _ => false end.

Fixpoint skip_ws (s : jsstring) : jsstring :=
  match s with
  | c :: r => if is_json_ws c then skip_ws r else s
  | [] => []
  end.

Definition is_digit (c : N) : bool := N.leb 48 c && N.leb c 57.

Definition hex_val (c : N) : option N :=
  if is_digit c then Some (c - 48)
  else if N.leb 97 c && N.leb c 102 then Some (c - 87)
  else if N.leb 65 c && N.leb c 70 then Some (c - 55)
  else None.

Definition hex4 (a b c d : N) : option N :=
  match hex_val a, hex_val b, hex_val c, hex_val d with
  | Some x, Some y, Some z, Some w => Some (((x * 16 + y) * 16 + z) * 16 + w)
  | _, _, _, _ => None
  end.

(** The characters of a string literal after its opening quote, up to the
    closing one. *)
Fixpoint parse_string_body (s : jsstring) (acc : jsstring)
  : option (jsstring * jsstring) :=
  match s with
  | [] => None
  | 34 :: r => Some (rev acc, r)
  | 92 :: e :: r =>
      match e with
      | 34 | 92 | 47 => parse_string_body r (e :: acc)
      | 98 => parse_string_body r (8 :: acc)
      | 102 => parse_string_body r (12 :: acc)
      | 110 => parse_string_body r (10 :: acc)
      | 114 => parse_string_body r (13 :: acc)
      | 116 => parse_string_body r (9 :: acc)
      | 117 =>
          match r with
          | a :: b :: c :: d :: r' =>
              match hex4 a b c d with
              | Some u => parse_string_body r' (u :: acc)
              | None => None
              end
          | _ => None
          end
      | _ => None
      end
  | c :: r => if N.ltb c 32 then None else parse_string_body r (c :: acc)
  end.

Fixpoint take_digits (s : jsstring) : jsstring * jsstring :=
  match s with
  | c :: r =>
      if is_digit c then let (ds, rest) := take_digits r in (c :: ds, rest)
      else ([], s)
  | [] => ([], [])
  end.

Definition digits_value (ds : jsstring) : Z :=
  fold_left (fun acc c => (acc * 10 + Z.of_N (c - 48))%Z) ds 0%Z.

(** The binary64 value nearest to [m * 10^e10] (ties to even), signed. The
    quotient by a power of ten is taken with 1200 extra bits and a sticky
    bit, which is finer than any rounding boundary of the format. *)
Definition decimal_to_double (neg : bool) (m e10 : Z) : SpecFloat.spec_float :=
  let sign (z : Z) := if neg then Z.opp z else z in
  if Z.eqb m 0 then SpecFloat.S754_zero neg
  else if Z.leb 0 e10
  then SpecFloat.binary_normalize 53 1024 (sign (m * 10 ^ e10)%Z) 0 neg
  else
    let d := (10 ^ (- e10))%Z in
    let k := (1200 + Z.log2_up d)%Z in
    let q := (m * 2 ^ k / d)%Z in
    let sticky := if Z.eqb ((m * 2 ^ k) mod d) 0 then 0%Z else 1%Z in
    SpecFloat.binary_normalize 53 1024 (sign (2 * q + sticky)%Z) (- (k + 1)) neg.

Definition parse_fraction (s : jsstring) : option (jsstring * jsstring) :=
  match s with
  | 46 :: r =>
      match take_digits r with
      | ([], _) => None
      | (ds, rest) => Some (ds, rest)
      end
  | _ => Some ([], s)
  end.

Definition parse_exponent (s : jsstring) : option (Z * jsstring) :=
  let digits (neg : bool) (r : jsstring) :=
    match take_digits r with
    | ([], _) => None
    | (ds, rest) =>
        Some (if neg then Z.opp (digits_value ds) else digits_value ds, rest)
    end in
  match s with
  | 101 :: r | 69 :: r =>
      match r with
      | 43 :: r' => digits false r'
      | 45 :: r' => digits true r'
      | _ => digits false r
      end
  | _ => Some (0%Z, s)
  end.

Definition parse_number (s : jsstring)
  : option (SpecFloat.spec_float * jsstring) :=
  let (neg, s1) :=
    match s with 45 :: r => (true, r) | _ => (false, s) end in
  match take_digits s1 with
  | ([], _) => None
  | (48 :: _ :: _, _) => None
  | (int, s2) =>
      match parse_fraction s2 with
      | None => None
      | Some (frac, s3) =>
          match parse_exponent s3 with
          | None => None
          | Some (e, s4) =>
              Some (decimal_to_double neg (digits_value (int ++ frac))
                                      (e - Z.of_nat (length frac)), s4)
          end
      end
  end.

(** A repeated name keeps its first position and takes the last value. *)
Fixpoint set_prop (k : jsstring) (v : JSValue) (props : list (jsstring * JSValue))
  : list (jsstring * JSValue) :=
  match props with
  | [] => [(k, v)]
  | (k', v') :: rest =>
      if eqb_str k k' then (k', v) :: rest else (k', v') :: set_prop k v rest
  end.

Fixpoint parse_value (fuel : nat) (s : jsstring) : option (JSValue * jsstring) :=
  match fuel with
  | O => None
  | S fuel' =>
      match skip_ws s with
      | 123 :: r =>
          match skip_ws r with
          | 125 :: r' => Some (JObject [], r')
          | _ => parse_members fuel' r []
          end
      | 91 :: r =>
          match skip_ws r with
          | 93 :: r' => Some (JArray [], r')
          | _ => parse_elements fuel' r []
          end
      | 34 :: r =>
          match parse_string_body r [] with
          | Some (text, r') => Some (JString text, r')
          | None => None
          end
      | 116 :: 114 :: 117 :: 101 :: r => Some (JBool true, r)
      | 102 :: 97 :: 108 :: 115 :: 101 :: r => Some (JBool false, r)
      | 110 :: 117 :: 108 :: 108 :: r => Some (JNull, r)
      | c :: r =>
          if N.eqb c 45 || is_digit c
          then
            match parse_number (c :: r) with
            | Some (x, r') => Some (JNumber x, r')
            | None => None
            end
          else None
      | [] => None
      end
  end
with parse_elements (fuel : nat) (s : jsstring) (acc : list JSValue)
  : option (JSValue * jsstring) :=
  match fuel with
  | O => None
  | S fuel' =>
      match parse_value fuel' s with
      | Some (v, r) =>
          match skip_ws r with
          | 44 :: r' => parse_elements fuel' r' (v :: acc)
          | 93 :: r' => Some (JArray (rev (v :: acc)), r')
          | _ => None
          end
      | None => None
      end
  end
with parse_members (fuel : nat) (s : jsstring) (acc : list (jsstring * JSValue))
  : option (JSValue * jsstring) :=
  match fuel with
  | O => None
  | S fuel' =>
      match skip_ws s with
      | 34 :: r =>
          match parse_string_body r [] with
          | Some (k, r1) =>
              match skip_ws r1 with
              | 58 :: r2 =>
                  match parse_value fuel' r2 with
                  | Some (v, r3) =>
                      match skip_ws r3 with
                      | 44 :: r4 => parse_members fuel' r4 (set_prop k v acc)
                      | 125 :: r4 => Some (JObject (set_prop k v acc), r4)
                      | _ => None
                      end
                  | None => None
                  end
              | _ => None
              end
          | None => None
          end
      | _ => None
      end
  end.

Definition JSON_parse (text : jsstring) : option JSValue :=
  match parse_value (2 * length text + 2) text with
  | Some (v, rest) =>
      match skip_ws rest with
      | [] => Some v
      | _ :: _ => None
      end
  | None => None
  end.

(** *** Renderings

    The digits of a number other than zero and the elements of an array are
    printed by the engine; here they are replaced by a tag. No statement
    depends on them. *)

Definition ToString (v : JSValue) : jsstring :=
  match v with
  | JUndefined => str "undefined"
  | JNull => str "null"
  | JBool true => str "true"
  | JBool false => str "false"
  | JNumber SpecFloat.S754_nan => str "NaN"
  | JNumber (SpecFloat.S754_zero _) => str "0"
  | JNumber (SpecFloat.S754_infinity false) => str "Infinity"
  | JNumber (SpecFloat.S754_infinity true) => str "-Infinity"
  | JNumber (SpecFloat.S754_finite _ _ _) => str "[number]"
  | JString s => s
  | JArray _ => str "[array]"
  | JObject _ => str "[object Object]"
  end.

Definition error_message (e : Exn) : jsstring :=
  match e with
  | TypeError_nullish prop =>
      str "Cannot read properties of undefined (reading '" ++ prop ++ str "')"
  | TypeError_not_a_function prop => prop ++ str " is not a function"
  | SyntaxError_JSON => str "Unexpected token in JSON"
  | IOError path => str "cannot read " ++ path
  | HostError message => message
  end.

Definition platform : Platform :=
  Build_Platform toLowerCase JSON_parse path_join ToString error_message.

End Reference.

(* ================================================================= *)
(** ** Vocabulary of the statements *)

(** A form whose four fields are strings, as the webview posts it. *)
Definition form_object (fd : CommitBuilder.FormData) : JSValue :=
  JObject [(str "type", JString (CommitBuilder.type fd));
           (str "scope", JString (CommitBuilder.scope fd));
           (str "subject", JString (CommitBuilder.subject fd));
           (str "body", JString (CommitBuilder.body fd))].

(** A commit type option: an object with a non-empty string [id] and a
    non-empty string [label]. *)
Definition is_commit_type (v : JSValue) : Prop :=
  exists props id label,
    v = JObject props
    /\ lookup (str "id") props = JString id /\ id <> []
    /\ lookup (str "label") props = JString label /\ label <> [].

(** A catalog: an object whose [types] is a sequence of commit type
    options. *)
Definition is_catalog (v : JSValue) : Prop :=
  exists props types,
    v = JObject props
    /\ lookup (str "types") props = JArray types
    /\ Forall is_commit_type types.

(** The ids of a catalog's entries, in order. *)
Definition catalog_ids (v : JSValue) : list JSValue :=
  match field v (str "types") with
  | JArray types => map (fun t => field t (str "id")) types
  | _ => []
  end.

Section Candidates.
Context `{Platform}.

(** The first candidate: the override in the first workspace folder, when
    a workspace is open. *)
Definition workspaceSchemaPath (host : SchemaManager.Host) : option jsstring :=
  match SchemaManager.workspaceFolders host with
  | Some (folder0 :: _) =>
      Some (path_join [folder0; str ".vscode"; str "commit-types.json"])
  | _ => None
  end.

(** The second candidate: the schema bundled with the extension. *)
Definition extensionSchemaPath (host : SchemaManager.Host) : jsstring :=
  path_join [SchemaManager.extensionPath host; str "resources";
             str "commit-types.json"].

(** What the loader does with one candidate path; [loadSchema_try] spells
    these steps out once for each of its two candidates. *)
Definition probe (host : SchemaManager.Host) (path : jsstring)
  : M (option JSValue) :=
  found <- SchemaManager.existsSync host path ;;
  if (found : bool)
  then
    schemaContent <- SchemaManager.readFileSync host path ;;
    schema <- SchemaManager.parse schemaContent ;;
    if SchemaManager.validateSchema schema then ret (Some schema) else ret None
  else ret None.

(** A candidate that yields no catalog: missing file, failing read, invalid
    JSON, or wrong shape. *)
Inductive Unusable (host : SchemaManager.Host) (path : jsstring) : Prop :=
| Unusable_missing :
    SchemaManager.file host path = SchemaManager.Absent -> Unusable host path
| Unusable_unreadable :
    SchemaManager.file host path = SchemaManager.Unreadable -> Unusable host path
| Unusable_malformed (text : jsstring) :
    SchemaManager.file host path = SchemaManager.Content text ->
    JSON_parse text = None -> Unusable host path
| Unusable_wrong_shape (text : jsstring) (v : JSValue) :
    SchemaManager.file host path = SchemaManager.Content text ->
    JSON_parse text = Some v -> ~ is_catalog v -> Unusable host path.

End Candidates.

(** The paths handed to [fs.readFileSync], in order. *)
Definition reads (t : Trace) : list jsstring :=
  flat_map (fun ev => match ev with ReadFileSync p => [p] | _ => [] end) t.

(** A value [typeof] calls an object and that is not [null]. *)
Definition is_object (v : JSValue) : bool :=
  match v with
  | JObject _ | JArray _ => true
  | _ => false
  end.

(** A required field that is absent, empty or made of white space only. *)
Definition blank (v : JSValue) : Prop :=
  v = JUndefined \/ exists s, v = JString s /\ trim s = [].

(** The text an optional body contributes: its string, or nothing when the
    value is falsy; [None] for a truthy value that is not a string. *)
Definition body_text (v : JSValue) : option jsstring :=
  match v with
  | JString b => Some b
  | _ => if truthy v then None else Some []
  end.

(** The panel accepts messages. *)
Definition live (h : MessageHandler.Handler) : bool :=
  match MessageHandler.panel h with
  | MessageHandler.WebviewLive => true
  | _ => false
  end.


(** *** Inputs of the worked examples *)

Module Examples.

(** A string literal of JSON text: the characters between double quotes. *)
Definition quoted (s : String.string) : jsstring := [34%N] ++ str s ++ [34%N].

Definition fix_form : CommitBuilder.FormData :=
  {| CommitBuilder.type := str "FIX"; CommitBuilder.scope := [];
     CommitBuilder.subject := str "perbaiki bug"; CommitBuilder.body := [] |}.

Definition feat_form : CommitBuilder.FormData :=
  {| CommitBuilder.type := str "feat"; CommitBuilder.scope := str "auth";
     CommitBuilder.subject := str "tambah login"; CommitBuilder.body := [] |}.

(** A body with surrounding white space and two bullet lines. *)
Definition bullets : jsstring :=
  [10; 32]%N ++ str "- satu" ++ [10%N] ++ str "- dua" ++ [32; 10]%N.

Definition body_form : CommitBuilder.FormData :=
  {| CommitBuilder.type := str "docs"; CommitBuilder.scope := [];
     CommitBuilder.subject := str "perbarui README"; CommitBuilder.body := bullets |}.

Definition untyped_form : CommitBuilder.FormData :=
  {| CommitBuilder.type := []; CommitBuilder.scope := [];
     CommitBuilder.subject := str "subject"; CommitBuilder.body := [] |}.

(** The text [{"types":[{"id":"wip","label":"Work in progress"}]}]. *)
Definition custom_text : jsstring :=
  str "{" ++ quoted "types" ++ str ":[{" ++ quoted "id" ++ str ":"
  ++ quoted "wip" ++ str "," ++ quoted "label" ++ str ":"
  ++ quoted "Work in progress" ++ str "}]}".

Definition custom_catalog : JSValue :=
  JObject [(str "types",
            JArray [SchemaManager.commitType (str "wip") (str "Work in progress")])].

(** The text [{"types": []}]. *)
Definition empty_text : jsstring := str "{" ++ quoted "types" ++ str ": []}".

Definition empty_catalog : JSValue := JObject [(str "types", JArray [])].

(** The text [{"types": "feat"}]: JSON of the wrong shape. *)
Definition misshapen_text : jsstring :=
  str "{" ++ quoted "types" ++ str ": " ++ quoted "feat" ++ str "}".

Definition workspace_file : jsstring := str "/work/.vscode/commit-types.json".
Definition extension_file : jsstring := str "/ext/resources/commit-types.json".

(** A workspace at [/work], the extension at [/ext], and the given states
    of the two candidate files. *)
Definition host_with (first second : SchemaManager.FileState) : SchemaManager.Host :=
  {| SchemaManager.workspaceFolders := Some [str "/work"];
     SchemaManager.extensionPath := str "/ext";
     SchemaManager.file := fun path =>
       if eqb_str path workspace_file then first
       else if eqb_str path extension_file then second
       else SchemaManager.Absent |}.

(** First candidate cut short, second candidate a valid catalog. *)
Definition malformed_first : SchemaManager.Host :=
  host_with (SchemaManager.Content (str "{")) (SchemaManager.Content custom_text).

Definition handler (p : MessageHandler.Panel) : MessageHandler.Handler :=
  {| MessageHandler.panel := p;
     MessageHandler.host := host_with SchemaManager.Absent SchemaManager.Absent |}.

(** [{ type: 'feat', subject: 'tambah login' }]: no [scope] property. *)
Definition scopeless_payload : JSValue :=
  JObject [(str "type", JString (str "feat"));
           (str "subject", JString (str "tambah login"))].



End Examples.

(* ================================================================= *)
(** ** The webview provider: [getNonce] *)

Module WebviewProvider.

Definition possible : jsstring :=
  str "ABCDEFGHIJKLMNOPQRSTUVWXYZabcdefghijklmnopqrstuvwxyz0123456789".

(** [s.charAt(i)]: the one-unit string at index [i], the empty string when
    [i] is out of range. *)
Definition charAt (s : jsstring) (i : nat) : jsstring :=
  match nth_error s i with
  | Some c => [c]
  | None => []
  end.

(** The loop [for (let i = ...; i < 32; i++) text += ...] with [remaining]
    iterations to go. [draw i] is the value of
    [Math.floor(Math.random() * possible.length)] in iteration [i]. *)
Fixpoint getNonce_loop (draw : nat -> nat) (i remaining : nat) (text : jsstring)
  : jsstring :=
  match remaining with
  | O => text
  | S remaining' =>
      getNonce_loop draw (S i) remaining' (text ++ charAt possible (draw i))
  end.

Definition getNonce (draw : nat -> nat) : jsstring :=
  getNonce_loop draw 0 32 [].

End WebviewProvider.

(* ================================================================= *)
(** ** The script of the webview page

    The script inside the HTML that [getHtmlContent] returns. What it does
    to the page and to the extension is recorded as a list of operations;
    a value assigned to a DOM property is recorded as assigned. *)

Module Webview.

Inductive Element : Type :=
| typeSelect | charCount | resultDiv | commitMessagePre | copyFeedback | errorDiv.

#[warnings="-register-all"]
Inductive Op : Type :=
| PostToExtension (message : JSValue)            (* vscode.postMessage(message) *)
| PreventDefault                                 (* e.preventDefault() *)
| SetTextContent (el : Element) (value : JSValue) (* el.textContent = value *)
| SetInnerHTML (el : Element) (html : jsstring)  (* el.innerHTML = html *)
| AppendOption (value text : JSValue)
    (* option = createElement('option'); option.value = value;
       option.textContent = text; typeSelect.appendChild(option) *)
| ClassAdd (el : Element) (name : jsstring)      (* el.classList.add(name) *)
| ClassRemove (el : Element) (name : jsstring)   (* el.classList.remove(name) *)
| ScrollIntoView (el : Element)
| SetTimeout (callback : list Op) (ms : nat).    (* setTimeout(() => callback, ms) *)

(** The operations of a run and the exception that ended it, if any. *)
Definition Run : Type := (list Op * option Exn)%type.

(** The first thing the script posts. *)
Definition ready : JSValue := JObject [(str "command", JString (str "webviewReady"))].

(** ['<option value="">Pilih type commit...</option>'] *)
Definition placeholder : jsstring :=
  str "<option value=" ++ [34; 34]%N ++ str ">Pilih type commit...</option>".

(** [Array.isArray] *)
Definition isArray (v : JSValue) : bool :=
  match v with JArray _ => true | _ => false end.

Section Script.
Context `{Platform}.

(** ['\u274C ' + message]; on the values a message carries, [+] converts
    its operand to a string as a template literal does. *)
Definition showError (message : JSValue) : list Op :=
  [SetTextContent errorDiv (JString ([10060; 32]%N ++ template message));
   ClassRemove errorDiv (str "hidden");
   SetTimeout [ClassAdd errorDiv (str "hidden")] 5000].

(** The callback of [schema.types.forEach], over the elements in order. *)
Fixpoint appendOptions (types : list JSValue) : Run :=
  match types with
  | [] => ([], None)
  | type :: rest =>
      match get type (str "id") with
      | Throw e => ([], Some e)
      | Ok id =>
          match get type (str "label") with
          | Throw e => ([], Some e)
          | Ok label =>
              let (ops, thrown) := appendOptions rest in
              (AppendOption id label :: ops, thrown)
          end
      end
  end.

Definition handleSchemaData (schema : JSValue) : Run :=
  if negb (truthy schema)
     || negb (truthy (field schema (str "types")))
     || negb (isArray (field schema (str "types")))
  then (showError (JString (str "Format schema tidak valid")), None)
  else
    match field schema (str "types") with
    | JArray types =>
        let (ops, thrown) := appendOptions types in
        (SetInnerHTML typeSelect placeholder :: ops, thrown)
    | _ => ([], None)
    end.

Definition handleCommitResult (commitMessage : JSValue) : list Op :=
  [SetTextContent commitMessagePre commitMessage;
   ClassRemove resultDiv (str "hidden");
   ClassAdd errorDiv (str "hidden");
   ScrollIntoView resultDiv].

Definition handleError (errorMessage : JSValue) : list Op :=
  showError errorMessage.

(** The listener of [window]'s [message] event, on [event.data]. *)
Definition onMessage (message : JSValue) : Run :=
  match get message (str "command") with
  | Throw e => ([], Some e)
  | Ok command =>
      if MessageHandler.strict_eq_str command (str "schemaData")
      then handleSchemaData (field message (str "data"))
      else if MessageHandler.strict_eq_str command (str "commitResult")
      then (handleCommitResult (field message (str "data")), None)
      else if MessageHandler.strict_eq_str command (str "error")
      then (handleError (field message (str "data")), None)
      else ([], None)
  end.

(** The listener of the form's [submit] event; the four arguments are the
    [value]s of the type select, the scope and subject inputs and the body
    text area. *)
Definition onSubmit (typeValue scopeValue subjectValue bodyValue : jsstring)
  : list Op :=
  PreventDefault ::
  if negb (truthy_str typeValue)
  then showError (JString (str "Silakan pilih type commit"))
  else if negb (truthy_str (trim subjectValue))
  then showError (JString (str "Subject tidak boleh kosong"))
  else
    let formData :=
      JObject [(str "type", JString typeValue);
               (str "scope", JString scopeValue);
               (str "subject", JString subjectValue);
               (str "body", JString bodyValue)] in
    [ClassAdd errorDiv (str "hidden");
     ClassAdd resultDiv (str "hidden");
     PostToExtension
       (JObject [(str "command", JString (str "submitForm"));
                 (str "data", formData)])].

End Script.

(** The messages a run posted to the extension, in order. *)
Definition outbox (ops : list Op) : list JSValue :=
  flat_map (fun op => match op with PostToExtension m => [m] | _ => [] end) ops.

End Webview.

(* ================================================================= *)
(** ** More vocabulary *)

(** The object [{ command, data }] that [sendToWebview] posts, as the page
    receives it in [event.data]. *)
Definition delivered (m : jsstring * JSValue) : JSValue :=
  JObject [(str "command", JString (fst m)); (str "data", snd m)].

(** The file-system calls of one probe: the existence test, then the read
    when the entry exists. *)
Definition probe_ops (host : SchemaManager.Host) (path : jsstring) : Trace :=
  match SchemaManager.file host path with
  | SchemaManager.Absent => [ExistsSync path]
  | _ => [ExistsSync path; ReadFileSync path]
  end.

(** How one probe ends, read off the state of the file. *)
Definition probe_outcome `{Platform} (host : SchemaManager.Host) (path : jsstring)
  : Result (option JSValue) :=
  match SchemaManager.file host path with
  | SchemaManager.Absent => Ok None
  | SchemaManager.Unreadable => Throw (IOError path)
  | SchemaManager.Content text =>
      match JSON_parse text with
      | None => Throw SyntaxError_JSON
      | Some v => Ok (if SchemaManager.validateSchema v then Some v else None)
      end
  end.

(** The paths handed to [fs.existsSync], in order. *)
Definition tests (t : Trace) : list jsstring :=
  flat_map (fun ev => match ev with ExistsSync p => [p] | _ => [] end) t.

(** The errors handed to [console.error], in order. *)
Definition console_errors (t : Trace) : list Exn :=
  flat_map (fun ev => match ev with ConsoleError e => [e] | _ => [] end) t.

(** A letter of the basic Latin alphabet or a decimal digit. *)
Definition is_alphanumeric (c : N) : bool :=
  (N.leb 48 c && N.leb c 57) || (N.leb 65 c && N.leb c 90)
  || (N.leb 97 c && N.leb c 122).

(** The four fields of a typed form, as a run-time object. *)
Definition typed_fields (data : JSValue) (fd : CommitBuilder.FormData) : Prop :=
  field data (str "type") = JString (CommitBuilder.type fd)
  /\ field data (str "scope") = JString (CommitBuilder.scope fd)
  /\ field data (str "subject") = JString (CommitBuilder.subject fd)
  /\ body_text (field data (str "body")) = Some (CommitBuilder.body fd).

(** The same form with each field trimmed. *)
Definition trimmed (fd : CommitBuilder.FormData) : CommitBuilder.FormData :=
  {| CommitBuilder.type := trim (CommitBuilder.type fd);
     CommitBuilder.scope := trim (CommitBuilder.scope fd);
     CommitBuilder.subject := trim (CommitBuilder.subject fd);
     CommitBuilder.body := trim (CommitBuilder.body fd) |}.

Module MoreExamples.

(** A draw that walks through the alphabet. *)
Definition walk (i : nat) : nat := i * 7 mod 62.

(** [{ type: 'feat', scope: 7, subject: 'x', body: '' }] *)
Definition numeric_scope : JSValue :=
  JObject [(str "type", JString (str "feat"));
           (str "scope", JNumber (SpecFloat.S754_finite false 7 0));
           (str "subject", JString (str "x"));
           (str "body", JString [])].

(** A form with white space around every field. *)
Definition padded_form : CommitBuilder.FormData :=
  {| CommitBuilder.type := str " Feat ";
     CommitBuilder.scope := [9%N] ++ str "auth ";
     CommitBuilder.subject := str "  tambah login" ++ [10%N];
     CommitBuilder.body := [10%N] ++ str "rinci " |}.

(** First candidate of the wrong shape, second candidate a valid catalog. *)
Definition misshapen_first : SchemaManager.Host :=
  Examples.host_with (SchemaManager.Content Examples.misshapen_text)
                     (SchemaManager.Content Examples.custom_text).

(** No workspace open; the bundled schema is the custom catalog. *)
Definition no_workspace : SchemaManager.Host :=
  {| SchemaManager.workspaceFolders := None;
     SchemaManager.extensionPath := str "/ext";
     SchemaManager.file := fun path =>
       if eqb_str path Examples.extension_file
       then SchemaManager.Content Examples.custom_text
       else SchemaManager.Absent |}.

(** The same two candidates as [misshapen_first], and a file more. *)
Definition misshapen_first_and_readme : SchemaManager.Host :=
  {| SchemaManager.workspaceFolders := Some [str "/work"];
     SchemaManager.extensionPath := str "/ext";
     SchemaManager.file := fun path =>
       if eqb_str path (str "/work/README.md")
       then SchemaManager.Content (str "halo")
       else SchemaManager.file misshapen_first path |}.

Definition custom_handler (p : MessageHandler.Panel) : MessageHandler.Handler :=
  {| MessageHandler.panel := p; MessageHandler.host := no_workspace |}.

(** [{ command: 'submitForm', data }] *)
Definition submit_message (data : JSValue) : JSValue :=
  JObject [(str "command", JString (str "submitForm")); (str "data", data)].

(** A form whose type is a single space. *)
Definition blank_type_form : CommitBuilder.FormData :=
  {| CommitBuilder.type := str " "; CommitBuilder.scope := [];
     CommitBuilder.subject := str "x"; CommitBuilder.body := [] |}.

(** A store with the feat form behind reference 1, the same four fields
    in another order and with one property more behind reference 2, and
    nothing elsewhere. *)
Definition two_forms : CommitBuilderStore.Store :=
  fun ref =>
    match ref with
    | 1 => [(str "type", JString (str "feat"));
            (str "scope", JString (str "auth"));
            (str "subject", JString (str "tambah login"));
            (str "body", JString [])]
    | 2 => [(str "origin", JString (str "webview"));
            (str "body", JString []);
            (str "subject", JString (str "tambah login"));
            (str "scope", JString (str "auth"));
            (str "type", JString (str "feat"))]
    | _ => []
    end.

End MoreExamples.

(* ================================================================= *)
(** ** Strings: what [trim] keeps *)

Section TrimFacts.

Lemma truthy_str_true (s : jsstring) : truthy_str s = true <-> s <> [].
Proof. destruct s; simpl; split; congruence. Qed.

Lemma truthy_str_false (s : jsstring) : truthy_str s = false <-> s = [].
Proof. destruct s; simpl; split; congruence. Qed.

Lemma eqb_str_eq (a b : jsstring) : eqb_str a b = true <-> a = b.
Proof.
  revert b; induction a as [|x a IH]; intros [|y b]; simpl;
    try (split; congruence).
  rewrite andb_true_iff, N.eqb_eq, IH. split.
  - intros [-> ->]; reflexivity.
  - intros E; injection E; auto.
Qed.

Lemma trimStart_split (s : jsstring) :
  exists pre, s = pre ++ trimStart s /\ forallb is_white_space pre = true.
Proof.
  induction s as [|c r [pre [E W]]]; simpl.
  - exists []; auto.
  - destruct (is_white_space c) eqn:Hc.
    + exists (c :: pre); simpl. rewrite Hc, W. split; [congruence | reflexivity].
    + exists []; auto.
Qed.

Lemma trimStart_head (s r : jsstring) (c : N) :
  trimStart s = c :: r -> is_white_space c = false.
Proof.
  induction s as [|x s IH]; simpl; [discriminate|].
  destruct (is_white_space x) eqn:Hx; auto.
  intros E; injection E as -> _; exact Hx.
Qed.

Lemma trimStart_snoc (s : jsstring) (c : N) :
  is_white_space c = false -> trimStart (s ++ [c]) = trimStart s ++ [c].
Proof.
  intros Hc; induction s as [|x s IH]; simpl.
  - rewrite Hc; reflexivity.
  - destruct (is_white_space x); auto.
Qed.

Lemma trimEnd_cons (s : jsstring) (c : N) :
  is_white_space c = false -> trimEnd (c :: s) = c :: trimEnd s.
Proof.
  intros Hc; unfold trimEnd; simpl.
  rewrite trimStart_snoc by exact Hc.
  rewrite rev_app_distr; reflexivity.
Qed.

Lemma trimEnd_split (s : jsstring) :
  exists post, s = trimEnd s ++ post /\ forallb is_white_space post = true.
Proof.
  destruct (trimStart_split (rev s)) as [pre [E W]].
  exists (rev pre); split.
  - unfold trimEnd. rewrite <- rev_app_distr, <- E, rev_involutive; reflexivity.
  - rewrite forallb_forall in *. intros x Hx. apply W, in_rev, Hx.
Qed.

Lemma trimEnd_last (s r : jsstring) (c : N) :
  trimEnd s = r ++ [c] -> is_white_space c = false.
Proof.
  unfold trimEnd; intros E.
  apply (f_equal (@rev N)) in E.
  rewrite rev_involutive, rev_app_distr in E; simpl in E.
  exact (trimStart_head _ _ _ E).
Qed.

(** The trimmed text is a contiguous piece of the original; what is cut
    off on either side is white space. *)
Lemma trim_split (s : jsstring) :
  exists pre post,
    s = pre ++ trim s ++ post
    /\ forallb is_white_space pre = true
    /\ forallb is_white_space post = true.
Proof.
  destruct (trimStart_split s) as [pre [E W]].
  destruct (trimEnd_split (trimStart s)) as [post [E' W']].
  exists pre, post; repeat split; auto.
  unfold trim; rewrite <- E'; exact E.
Qed.

Lemma trim_head (s r : jsstring) (c : N) :
  trim s = c :: r -> is_white_space c = false.
Proof.
  unfold trim. destruct (trimStart s) as [|x t] eqn:E.
  - discriminate.
  - pose proof (trimStart_head _ _ _ E) as Hx.
    rewrite trimEnd_cons by exact Hx.
    intros E'; injection E' as -> _; exact Hx.
Qed.

Lemma trim_last (s r : jsstring) (c : N) :
  trim s = r ++ [c] -> is_white_space c = false.
Proof. unfold trim; apply trimEnd_last. Qed.

Lemma trim_nil : trim [] = [].
Proof. reflexivity. Qed.

End TrimFacts.

(* ================================================================= *)
(** ** The formatter *)

Section Formatter.
Context `{Platform}.
Import CommitBuilder.

Lemma formatHeader_no_scope (type scope subject : jsstring) :
  trim scope = [] ->
  formatHeader type scope subject
  = toLowerCase (trim type) ++ str ": " ++ trim subject.
Proof. intros E; unfold formatHeader; rewrite E; reflexivity. Qed.

Lemma formatHeader_scope (type scope subject : jsstring) :
  trim scope <> [] ->
  formatHeader type scope subject
  = toLowerCase (trim type) ++ str "(" ++ trim scope ++ str "): " ++ trim subject.
Proof.
  intros E; unfold formatHeader.
  apply truthy_str_true in E; rewrite E; reflexivity.
Qed.

(** A header ends with its subject or, when the subject is blank, with the
    space after the colon: never with a line feed. *)
Lemma formatHeader_no_trailing_newline (type scope subject h : jsstring) :
  formatHeader type scope subject <> h ++ [10%N].
Proof.
  assert (tail : forall front : jsstring,
             front ++ [32%N] ++ trim subject <> h ++ [10%N]).
  { intros front E.
    destruct (trim subject) as [|x t] eqn:Es.
    - rewrite app_nil_r in E.
      apply app_inj_tail in E; destruct E as [_ E]; discriminate.
    - destruct (@exists_last _ (x :: t)) as [r [c Er]]; [discriminate|].
      rewrite Er in E, Es. rewrite !app_assoc in E.
      apply app_inj_tail in E; destruct E as [_ ->].
      apply trim_last in Es; discriminate. }
  unfold formatHeader; destruct (truthy_str (trim scope)).
  - specialize (tail (toLowerCase (trim type) ++ str "(" ++ trim scope ++ str "):")).
    rewrite <- !app_assoc in tail. exact tail.
  - specialize (tail (toLowerCase (trim type) ++ str ":")).
    rewrite <- !app_assoc in tail. exact tail.
Qed.

Lemma buildCommitMessage_body (fd : FormData) :
  trim (body fd) <> [] ->
  buildCommitMessage fd
  = formatHeader (type fd) (scope fd) (subject fd) ++ [10; 10]%N ++ trim (body fd).
Proof.
  intros E; unfold buildCommitMessage, formatBody.
  assert (body fd <> []) as Eb by (intros Eb; rewrite Eb in E; auto).
  apply truthy_str_true in E, Eb; rewrite E, Eb; reflexivity.
Qed.

Lemma buildCommitMessage_no_body (fd : FormData) :
  trim (body fd) = [] ->
  buildCommitMessage fd = formatHeader (type fd) (scope fd) (subject fd).
Proof.
  intros E; unfold buildCommitMessage.
  apply truthy_str_false in E; rewrite E, andb_false_r; reflexivity.
Qed.

End Formatter.

Section FormatterClaims.
Context `{Platform}.
Import CommitBuilder.

(** On anything but [null] and [undefined] the property reads of the
    run-time builder succeed, and it computes with the values read. *)
Lemma buildCommitMessage_fields (data : JSValue) :
  data <> JUndefined -> data <> JNull ->
  CommitBuilderJS.buildCommitMessage data
  = (let? header :=
       CommitBuilderJS.formatHeader
         (field data (str "type")) (field data (str "scope"))
         (field data (str "subject")) in
     let? hasBody :=
       if truthy (field data (str "body"))
       then (let? t := call_trim (field data (str "body")) in Ok (truthy_str t))
       else Ok false in
     if hasBody
     then
       let? body := CommitBuilderJS.formatBody (field data (str "body")) in
       Ok (header ++ [10; 10]%N ++ body)
     else Ok header).
Proof.
  intros Nu Nn; destruct data; try contradiction; reflexivity.
Qed.

Lemma string_field_not_nullish (data : JSValue) (k s : jsstring) :
  field data k = JString s -> data <> JUndefined /\ data <> JNull.
Proof. intros E; split; intros ->; discriminate E. Qed.

(** At run time the builder, given an object whose [type], [scope] and
    [subject] are strings and whose [body] is a string or falsy, returns
    what the typed builder computes: no [Throw]. *)
Lemma buildCommitMessage_typed (data : JSValue) (t sc su b : jsstring) :
  field data (str "type") = JString t ->
  field data (str "scope") = JString sc ->
  field data (str "subject") = JString su ->
  body_text (field data (str "body")) = Some b ->
  CommitBuilderJS.buildCommitMessage data
  = Ok (buildCommitMessage {| type := t; scope := sc; subject := su; body := b |}).
Proof.
  intros Et Es Eu Eb.
  destruct (string_field_not_nullish _ _ _ Et) as [Nu Nn].
  rewrite (buildCommitMessage_fields data Nu Nn).
  unfold CommitBuilderJS.formatHeader,
    CommitBuilderJS.formatBody, buildCommitMessage, formatHeader, formatBody.
  rewrite Et, Es, Eu; simpl.
  destruct (field data (str "body")) as [| |[|]|x|s|l|l] eqn:Ef;
    simpl in Eb |- *; try discriminate Eb;
    try (injection Eb as <-; simpl; destruct (truthy_str (trim sc)); reflexivity).
  - destruct x; simpl in Eb |- *; try discriminate Eb;
      injection Eb as <-; simpl; destruct (truthy_str (trim sc)); reflexivity.
  - injection Eb as <-.
    destruct (truthy_str (trim sc)), (truthy_str s), (truthy_str (trim s));
      reflexivity.
Qed.

(** C1: the header is the trimmed, lowercased type, then the trimmed scope
    in parentheses when it is not empty, then a colon, a space and the
    trimmed subject; every output starts with it, and with an empty body it
    is the whole output. *)
Theorem C1_header_format (fd : FormData) :
  let cleanType := toLowerCase (trim (type fd)) in
  let cleanScope := trim (scope fd) in
  let cleanSubject := trim (subject fd) in
  let header := formatHeader (type fd) (scope fd) (subject fd) in
  (cleanScope <> [] ->
   header = cleanType ++ str "(" ++ cleanScope ++ str "): " ++ cleanSubject)
  /\ (cleanScope = [] -> header = cleanType ++ str ": " ++ cleanSubject)
  /\ (exists rest, buildCommitMessage fd = header ++ rest)
  /\ (scope fd = [] -> body fd = [] ->
      buildCommitMessage fd = cleanType ++ str ": " ++ cleanSubject)
  /\ (cleanScope <> [] -> body fd = [] ->
      buildCommitMessage fd
      = cleanType ++ str "(" ++ cleanScope ++ str "): " ++ cleanSubject).
Proof.
  cbv zeta. repeat split.
  - apply formatHeader_scope.
  - apply formatHeader_no_scope.
  - destruct (truthy_str (trim (body fd))) eqn:E.
    + apply truthy_str_true in E.
      rewrite (buildCommitMessage_body fd E). eexists; reflexivity.
    + apply truthy_str_false in E.
      rewrite (buildCommitMessage_no_body fd E).
      exists []; rewrite app_nil_r; reflexivity.
  - intros Es Eb.
    rewrite buildCommitMessage_no_body by (rewrite Eb; reflexivity).
    apply formatHeader_no_scope; rewrite Es; reflexivity.
  - intros Es Eb.
    rewrite buildCommitMessage_no_body by (rewrite Eb; reflexivity).
    apply formatHeader_scope, Es.
Qed.

(** C2: when the body does not trim to nothing, the output is the header,
    two line feeds and the trimmed body; the header does not end and the
    trimmed body does not start with a line feed, so one blank line
    separates them; the trimmed body is the original body without the white
    space before its first and after its last other character. When the
    body trims to nothing the output is the header. *)
Theorem C2_body_separation (fd : FormData) :
  let header := formatHeader (type fd) (scope fd) (subject fd) in
  (trim (body fd) <> [] ->
   buildCommitMessage fd = header ++ [10; 10]%N ++ trim (body fd)
   /\ (forall h, header <> h ++ [10%N])
   /\ (exists c r, trim (body fd) = c :: r /\ is_white_space c = false)
   /\ (exists r c, trim (body fd) = r ++ [c] /\ is_white_space c = false)
   /\ (exists pre post,
          body fd = pre ++ trim (body fd) ++ post
          /\ forallb is_white_space pre = true
          /\ forallb is_white_space post = true))
  /\ (trim (body fd) = [] -> buildCommitMessage fd = header).
Proof.
  cbv zeta; split.
  - intros E; repeat split.
    + apply buildCommitMessage_body, E.
    + intros h; apply formatHeader_no_trailing_newline.
    + destruct (trim (body fd)) as [|c r] eqn:Eb; [congruence|].
      exists c, r; split; [reflexivity | exact (trim_head _ _ _ Eb)].
    + destruct (@exists_last _ (trim (body fd)) E) as [r [c Eb]].
      exists r, c; split; [exact Eb | exact (trim_last _ _ _ Eb)].
    + apply trim_split.
  - apply buildCommitMessage_no_body.
Qed.

(** C6: on four strings the builder never throws, whatever they are, and
    returns the formatted text; with a type and a scope that trim to
    nothing and no body the text is a colon, a space and the trimmed
    subject. *)
Theorem C6_total_without_validation (lower_empty : toLowerCase [] = []) :
  (forall fd : FormData,
      CommitBuilderJS.buildCommitMessage (form_object fd)
      = Ok (buildCommitMessage fd))
  /\ (forall type scope subject body : jsstring,
         trim type = [] -> trim scope = [] -> trim body = [] ->
         buildCommitMessage
           {| type := type; scope := scope; subject := subject; body := body |}
         = str ": " ++ trim subject).
Proof.
  split.
  - intros [t sc su b]. apply buildCommitMessage_typed; reflexivity.
  - intros t sc su b Et Es Eb.
    rewrite buildCommitMessage_no_body by exact Eb. simpl.
    rewrite formatHeader_no_scope by exact Es.
    rewrite Et, lower_empty; reflexivity.
Qed.

(** Over a store the builder leaves the store as it found it and returns
    what the run-time builder returns on the object the reference holds. *)
Lemma store_buildCommitMessage_run
      (formData : CommitBuilderStore.Ref) (st : CommitBuilderStore.Store) :
  CommitBuilderStore.buildCommitMessage formData st
  = (st, CommitBuilderJS.buildCommitMessage (JObject (st formData))).
Proof.
  unfold CommitBuilderStore.buildCommitMessage,
    CommitBuilderJS.buildCommitMessage, CommitBuilderStore.bindS,
    CommitBuilderStore.readProp, CommitBuilderStore.liftS,
    CommitBuilderStore.retS, CommitBuilderJS.formatBody.
  cbn [get bindR].
  destruct (CommitBuilderJS.formatHeader
              (lookup (str "type") (st formData))
              (lookup (str "scope") (st formData))
              (lookup (str "subject") (st formData))) as [header|e];
    cbn [bindR]; [|reflexivity].
  destruct (truthy (lookup (str "body") (st formData))); cbn [bindR].
  - destruct (call_trim (lookup (str "body") (st formData))) as [t|e] eqn:Ct;
      cbn [bindR]; [|reflexivity].
    destruct (truthy_str t); rewrite ?Ct; reflexivity.
  - reflexivity.
Qed.

(** The store is read when the builder runs: after an assignment to the
    subject of the form the builder formats the assigned value. *)
Lemma store_write_is_seen
      (formData : CommitBuilderStore.Ref) (v : JSValue)
      (st : CommitBuilderStore.Store) :
  snd (CommitBuilderStore.bindS
         (CommitBuilderStore.writeProp formData (str "subject") v)
         (fun _ => CommitBuilderStore.buildCommitMessage formData) st)
  = CommitBuilderJS.buildCommitMessage
      (JObject ((str "subject", v) :: st formData)).
Proof.
  unfold CommitBuilderStore.bindS, CommitBuilderStore.writeProp.
  rewrite store_buildCommitMessage_run; cbn [snd].
  rewrite Nat.eqb_refl; reflexivity.
Qed.

(** C7: formatting is deterministic and changes no state. With the form
    data in a store of objects that a method may read and write, a call of
    the builder leaves the store as it found it; what it returns is fixed
    by the four properties of the form alone, so a call on any reference,
    in any store, whose four properties are the same returns the same; and
    two calls in a row return the same twice. *)
Theorem C7_deterministic
        (formData : CommitBuilderStore.Ref) (st : CommitBuilderStore.Store) :
  fst (CommitBuilderStore.buildCommitMessage formData st) = st
  /\ snd (CommitBuilderStore.buildCommitMessage formData st)
     = CommitBuilderJS.buildCommitMessage (JObject (st formData))
  /\ (forall (formData' : CommitBuilderStore.Ref) (st' : CommitBuilderStore.Store),
         lookup (str "type") (st' formData') = lookup (str "type") (st formData) ->
         lookup (str "scope") (st' formData') = lookup (str "scope") (st formData) ->
         lookup (str "subject") (st' formData')
         = lookup (str "subject") (st formData) ->
         lookup (str "body") (st' formData') = lookup (str "body") (st formData) ->
         snd (CommitBuilderStore.buildCommitMessage formData' st')
         = snd (CommitBuilderStore.buildCommitMessage formData st))
  /\ CommitBuilderStore.bindS
       (CommitBuilderStore.buildCommitMessage formData)
       (fun first =>
          CommitBuilderStore.bindS
            (CommitBuilderStore.buildCommitMessage formData)
            (fun second => CommitBuilderStore.retS (first, second))) st
     = (st,
        match snd (CommitBuilderStore.buildCommitMessage formData st) with
        | Ok text => Ok (text, text)
        | Throw e => Throw e
        end).
Proof.
  repeat split.
  - rewrite store_buildCommitMessage_run; reflexivity.
  - rewrite store_buildCommitMessage_run; reflexivity.
  - intros formData' st' Et Es Eu Eb.
    rewrite !store_buildCommitMessage_run; cbn [snd].
    unfold CommitBuilderJS.buildCommitMessage; cbn [get].
    rewrite Et, Es, Eu, Eb; reflexivity.
  - unfold CommitBuilderStore.bindS, CommitBuilderStore.retS.
    rewrite !store_buildCommitMessage_run; cbn [snd].
    destruct (CommitBuilderJS.buildCommitMessage (JObject (st formData)))
      as [text|e] eqn:E; [|reflexivity].
    cbv beta. rewrite ?store_buildCommitMessage_run, ?E; reflexivity.
Qed.

End FormatterClaims.

Lemma C1_header_format_witness :
  @CommitBuilder.buildCommitMessage Reference.platform Examples.fix_form
  = str "fix: perbaiki bug"
  /\ @CommitBuilder.buildCommitMessage Reference.platform Examples.feat_form
     = str "feat(auth): tambah login".
Proof.
  split.
  - apply (C1_header_format (H := Reference.platform) Examples.fix_form);
      reflexivity.
  - apply (C1_header_format (H := Reference.platform) Examples.feat_form);
      [discriminate | reflexivity].
Defined.

Lemma C2_body_separation_witness :
  @CommitBuilder.buildCommitMessage Reference.platform Examples.body_form
  = str "docs: perbarui README" ++ [10; 10]%N
    ++ str "- satu" ++ [10%N] ++ str "- dua".
Proof.
  apply (C2_body_separation (H := Reference.platform) Examples.body_form).
  discriminate.
Defined.

Lemma C6_total_without_validation_witness :
  @CommitBuilder.buildCommitMessage Reference.platform Examples.untyped_form
  = str ": subject"
  /\ @CommitBuilderJS.buildCommitMessage Reference.platform
       (form_object Examples.untyped_form)
     = Ok (str ": subject").
Proof.
  split.
  - apply (proj2 (C6_total_without_validation (H := Reference.platform) eq_refl)
             [] [] (str "subject") []); reflexivity.
  - apply (proj1 (C6_total_without_validation (H := Reference.platform) eq_refl)
             Examples.untyped_form).
Defined.

Lemma C7_deterministic_witness :
  snd (@CommitBuilderStore.buildCommitMessage Reference.platform
         2 MoreExamples.two_forms)
  = snd (@CommitBuilderStore.buildCommitMessage Reference.platform
           1 MoreExamples.two_forms).
Proof.
  refine (proj1 (proj2 (proj2 (C7_deterministic (H := Reference.platform)
                                 1 MoreExamples.two_forms)))
                2 MoreExamples.two_forms _ _ _ _); reflexivity.
Defined.

(* ================================================================= *)
(** ** The schema loader *)

Section Validation.
Import SchemaManager.

Lemma required_string (v : JSValue) :
  negb (truthy v) || negb (is_string_tag (typeof v)) = false
  <-> exists s, v = JString s /\ s <> [].
Proof.
  split.
  - destruct v as [| |b|x|s|l|l]; simpl;
      rewrite ?orb_true_r, ?orb_false_r; try discriminate.
    intros E; exists s; split; [reflexivity|].
    apply truthy_str_true. destruct (truthy_str s); [reflexivity | discriminate].
  - intros [s [-> E]]; simpl.
    apply truthy_str_true in E; rewrite E; reflexivity.
Qed.

(** The test the loop of [validateSchema] applies to one element. *)
Lemma element_accepted (v : JSValue) :
  (if negb (truthy v) || negb (is_object_tag (typeof v))
   then false
   else if negb (truthy (field v (str "id")))
           || negb (is_string_tag (typeof (field v (str "id"))))
   then false
   else if negb (truthy (field v (str "label")))
           || negb (is_string_tag (typeof (field v (str "label"))))
   then false
   else true) = true
  <-> is_commit_type v.
Proof.
  split.
  - destruct v as [| |b|x|s|l|props]; try (simpl; discriminate).
    + destruct b; simpl; discriminate.
    + destruct x; simpl; discriminate.
    + destruct s; simpl; discriminate.
    + cbn [truthy typeof is_object_tag negb orb field].
      destruct (negb (truthy (lookup (str "id") props))
                || negb (is_string_tag (typeof (lookup (str "id") props))))
        eqn:Ei; [discriminate|].
      destruct (negb (truthy (lookup (str "label") props))
                || negb (is_string_tag (typeof (lookup (str "label") props))))
        eqn:El; [discriminate|].
      intros _.
      apply required_string in Ei, El.
      destruct Ei as [id [Ei Ni]], El as [label [El Nl]].
      exists props, id, label; auto.
  - intros [props [id [label [-> [Ei [Ni [El Nl]]]]]]].
    cbn [truthy typeof is_object_tag negb orb field].
    rewrite Ei, El; simpl.
    apply truthy_str_true in Ni, Nl; rewrite Ni, Nl; reflexivity.
Qed.

(** [validateSchema] accepts exactly the catalogs. *)
Lemma validateSchema_catalog (v : JSValue) :
  validateSchema v = true <-> is_catalog v.
Proof.
  unfold validateSchema, is_catalog; split.
  - destruct v as [| |b|x|s|l|props]; try (simpl; discriminate).
    + destruct b; simpl; discriminate.
    + destruct x; simpl; discriminate.
    + destruct s; simpl; discriminate.
    + cbn [truthy typeof is_object_tag negb orb field].
      destruct (lookup (str "types") props) as [| |b|x|s|types|l] eqn:Et;
        try discriminate.
      intros E; exists props, types; repeat split; auto.
      rewrite forallb_forall in E. apply Forall_forall; intros t Ht.
      apply element_accepted, E, Ht.
  - intros [props [types [-> [Et Ft]]]].
    cbn [truthy typeof is_object_tag negb orb field]. rewrite Et.
    apply forallb_forall; intros t Ht.
    apply element_accepted. rewrite Forall_forall in Ft; auto.
Qed.

Lemma validateSchema_rejects (v : JSValue) :
  ~ is_catalog v -> validateSchema v = false.
Proof.
  intros N; destruct (validateSchema v) eqn:E; [|reflexivity].
  apply validateSchema_catalog in E; contradiction.
Qed.

Lemma default_is_catalog : is_catalog getDefaultSchema.
Proof. apply validateSchema_catalog; reflexivity. Qed.

End Validation.

Section Loading.
Context `{Platform}.
Import SchemaManager.

(** The [try] block is the probe of the workspace candidate, when there is
    one, then the probe of the bundled candidate. *)
Lemma loadSchema_try_probes (host : Host) :
  loadSchema_try host
  = (fromWorkspace <-
       match workspaceSchemaPath host with
       | Some path => probe host path
       | None => ret None
       end ;;
     match fromWorkspace with
     | Some schema => ret (Some schema)
     | None => probe host (extensionSchemaPath host)
     end).
Proof.
  unfold loadSchema_try, workspaceSchemaPath, extensionSchemaPath, probe.
  destruct (workspaceFolders host) as [[|folder0 rest]|]; reflexivity.
Qed.

Lemma probe_missing (host : Host) (path : jsstring) :
  file host path = Absent ->
  probe host path = ([ExistsSync path], Ok None).
Proof. intros E; unfold probe, existsSync; rewrite E; reflexivity. Qed.

Lemma probe_unreadable (host : Host) (path : jsstring) :
  file host path = Unreadable ->
  probe host path = ([ExistsSync path; ReadFileSync path], Throw (IOError path)).
Proof.
  intros E; unfold probe, existsSync, readFileSync; rewrite E; reflexivity.
Qed.

Lemma probe_malformed (host : Host) (path text : jsstring) :
  file host path = Content text -> JSON_parse text = None ->
  probe host path
  = ([ExistsSync path; ReadFileSync path], Throw SyntaxError_JSON).
Proof.
  intros E P; unfold probe, existsSync, readFileSync, parse.
  rewrite E; simpl; rewrite P; reflexivity.
Qed.

Lemma probe_parsed (host : Host) (path text : jsstring) (v : JSValue) :
  file host path = Content text -> JSON_parse text = Some v ->
  probe host path
  = ([ExistsSync path; ReadFileSync path],
     Ok (if validateSchema v then Some v else None)).
Proof.
  intros E P; unfold probe, existsSync, readFileSync, parse.
  rewrite E; simpl; rewrite P; simpl.
  destruct (validateSchema v); reflexivity.
Qed.

(** A probe either throws or ends with a catalog or with nothing. *)
Lemma probe_result (host : Host) (path : jsstring) :
  exists t,
    (exists e, probe host path = (t, Throw e))
    \/ probe host path = (t, Ok None)
    \/ (exists v, probe host path = (t, Ok (Some v)) /\ is_catalog v).
Proof.
  destruct (file host path) as [| |text] eqn:E.
  - eexists; right; left; apply probe_missing, E.
  - eexists; left; eexists; apply probe_unreadable, E.
  - destruct (JSON_parse text) as [v|] eqn:P.
    + rewrite (probe_parsed _ _ _ _ E P).
      destruct (validateSchema v) eqn:V; eexists.
      * right; right; exists v; split; [reflexivity|].
        apply validateSchema_catalog, V.
      * right; left; reflexivity.
    + eexists; left; eexists; apply (probe_malformed _ _ _ E P).
Qed.

(** An unusable candidate makes the probe throw or end with nothing. *)
Lemma probe_unusable (host : Host) (path : jsstring) :
  Unusable host path ->
  exists t,
    (exists e, probe host path = (t, Throw e)) \/ probe host path = (t, Ok None).
Proof.
  intros [E|E|text E P|text v E P N].
  - eexists; right; apply probe_missing, E.
  - eexists; left; eexists; apply probe_unreadable, E.
  - eexists; left; eexists; apply (probe_malformed _ _ _ E P).
  - eexists; right. rewrite (probe_parsed _ _ _ _ E P).
    rewrite (validateSchema_rejects _ N); reflexivity.
Qed.

(** The loader's result, from the results of its probes. *)
Lemma loadSchema_first_returns (host : Host) (path : jsstring)
      (t : Trace) (v : JSValue) :
  workspaceSchemaPath host = Some path ->
  probe host path = (t, Ok (Some v)) ->
  loadSchema host = (t, Ok v).
Proof.
  intros W P; unfold loadSchema; rewrite loadSchema_try_probes, W, P; simpl.
  rewrite !app_nil_r; reflexivity.
Qed.

Lemma loadSchema_first_throws (host : Host) (path : jsstring)
      (t : Trace) (e : Exn) :
  workspaceSchemaPath host = Some path ->
  probe host path = (t, Throw e) ->
  loadSchema host = (t ++ [ConsoleError e], Ok getDefaultSchema).
Proof.
  intros W P; unfold loadSchema; rewrite loadSchema_try_probes, W, P; simpl.
  rewrite !app_nil_r; reflexivity.
Qed.

End Loading.

Section LoadingClaims.
Context `{Platform}.
Import SchemaManager.

Lemma loadSchema_second (host : Host) (t1 : Trace) :
  match workspaceSchemaPath host with
  | Some path => probe host path
  | None => ret None
  end = (t1, Ok None) ->
  loadSchema host
  = match probe host (extensionSchemaPath host) with
    | (t2, Ok (Some v)) => (t1 ++ t2, Ok v)
    | (t2, Ok None) => (t1 ++ t2, Ok getDefaultSchema)
    | (t2, Throw e) => (t1 ++ t2 ++ [ConsoleError e], Ok getDefaultSchema)
    end.
Proof.
  intros W; unfold loadSchema; rewrite loadSchema_try_probes, W; simpl.
  destruct (probe host (extensionSchemaPath host)) as [t2 [[v|]|e]]; simpl;
    rewrite ?app_nil_r, ?app_assoc; reflexivity.
Qed.

(** The workspace probe, whatever the host: it throws, ends with nothing
    or ends with a catalog. *)
Lemma workspace_probe_result (host : Host) :
  exists t,
    (exists path e, workspaceSchemaPath host = Some path
                    /\ probe host path = (t, Throw e))
    \/ match workspaceSchemaPath host with
       | Some path => probe host path
       | None => ret None
       end = (t, Ok None)
    \/ (exists path v, workspaceSchemaPath host = Some path
                       /\ probe host path = (t, Ok (Some v)) /\ is_catalog v).
Proof.
  destruct (workspaceSchemaPath host) as [path|] eqn:W.
  - destruct (probe_result host path) as [t [[e P]|[P|[v [P C]]]]]; exists t.
    + left; exists path, e; auto.
    + right; left; exact P.
    + right; right; exists path, v; auto.
  - exists []; right; left; reflexivity.
Qed.

(** C4: when the first candidate exists, parses and is a catalog, the
    loader returns the parsed value itself after one existence test and one
    read, both of the first candidate: the second candidate is not read
    and the default is not used. *)
Theorem C4_first_candidate_short_circuits
        (host : Host) (path text : jsstring) (v : JSValue) :
  workspaceSchemaPath host = Some path ->
  file host path = Content text ->
  JSON_parse text = Some v ->
  is_catalog v ->
  loadSchema host = ([ExistsSync path; ReadFileSync path], Ok v)
  /\ reads (fst (loadSchema host)) = [path].
Proof.
  intros W E P C.
  assert (loadSchema host = ([ExistsSync path; ReadFileSync path], Ok v)) as L.
  { apply (loadSchema_first_returns host path); [exact W|].
    rewrite (probe_parsed _ _ _ _ E P).
    apply validateSchema_catalog in C; rewrite C; reflexivity. }
  rewrite L; split; reflexivity.
Qed.

(** What the single [try] block does with a failure on the first candidate:
    a read or a parse that raises is caught and logged, the loader returns
    the default catalog, and the second candidate, which the comments of
    the class and of the method say comes next, is not consulted. *)
Lemma first_failure_yields_default (host : Host) (path : jsstring) :
  workspaceSchemaPath host = Some path ->
  (file host path = Unreadable
   \/ exists text, file host path = Content text /\ JSON_parse text = None) ->
  exists e,
    loadSchema host
    = ([ExistsSync path; ReadFileSync path; ConsoleError e], Ok getDefaultSchema).
Proof.
  intros W [E|[text [E P]]].
  - exists (IOError path).
    apply (loadSchema_first_throws host path [ExistsSync path; ReadFileSync path]);
      [exact W | apply probe_unreadable, E].
  - exists SyntaxError_JSON.
    apply (loadSchema_first_throws host path [ExistsSync path; ReadFileSync path]);
      [exact W | apply (probe_malformed _ _ _ E P)].
Qed.

(** C5: the loader always returns, and what it returns is a catalog; when
    no candidate is usable it returns the default catalog, whose seven
    entries have the ids feat, fix, docs, style, refactor, test, chore. *)
Theorem C5_total_with_default (host : Host) :
  (exists t v, loadSchema host = (t, Ok v) /\ is_catalog v)
  /\ ((forall path, workspaceSchemaPath host = Some path -> Unusable host path) ->
      Unusable host (extensionSchemaPath host) ->
      snd (loadSchema host) = Ok getDefaultSchema)
  /\ catalog_ids getDefaultSchema
     = map JString [str "feat"; str "fix"; str "docs"; str "style";
                    str "refactor"; str "test"; str "chore"]
  /\ length (catalog_ids getDefaultSchema) = 7.
Proof.
  repeat split.
  - destruct (workspace_probe_result host)
      as [t1 [[path [e [W P]]]|[P|[path [v [W [P C]]]]]]].
    + eexists; eexists; split;
        [apply (loadSchema_first_throws host path t1 e W P)
        | apply default_is_catalog].
    + rewrite (loadSchema_second host t1 P).
      destruct (probe_result host (extensionSchemaPath host))
        as [t2 [[e Q]|[Q|[v [Q C]]]]]; rewrite Q;
        eexists; eexists; split; try reflexivity;
        auto using default_is_catalog.
    + eexists; eexists; split;
        [apply (loadSchema_first_returns host path t1 v W P) | exact C].
  - intros U1 U2.
    destruct (probe_unusable _ _ U2) as [t2 Q].
    destruct (workspaceSchemaPath host) as [path|] eqn:W.
    + destruct (probe_unusable _ _ (U1 path eq_refl)) as [t1 [[e P]|P]].
      * rewrite (loadSchema_first_throws host path t1 e W P); reflexivity.
      * rewrite (loadSchema_second host t1) by (rewrite W; exact P).
        destruct Q as [[e Q]|Q]; rewrite Q; reflexivity.
    + rewrite (loadSchema_second host []) by (rewrite W; reflexivity).
      destruct Q as [[e Q]|Q]; rewrite Q; reflexivity.
Qed.

(** C8: the object whose [types] is the empty array passes
    [validateSchema]; a candidate file that parses to it is what the loader
    returns, a catalog with no entry, as the first candidate and also as
    the second one when the first is missing. *)
Theorem C8_empty_types_accepted :
  validateSchema Examples.empty_catalog = true
  /\ catalog_ids Examples.empty_catalog = []
  /\ Examples.empty_catalog <> getDefaultSchema
  /\ (forall (host : Host) (path text : jsstring),
         workspaceSchemaPath host = Some path ->
         file host path = Content text ->
         JSON_parse text = Some Examples.empty_catalog ->
         snd (loadSchema host) = Ok Examples.empty_catalog)
  /\ (forall (host : Host) (text : jsstring),
         (forall path, workspaceSchemaPath host = Some path ->
                       file host path = Absent) ->
         file host (extensionSchemaPath host) = Content text ->
         JSON_parse text = Some Examples.empty_catalog ->
         snd (loadSchema host) = Ok Examples.empty_catalog).
Proof.
  repeat split.
  - discriminate.
  - intros host path text W E P.
    rewrite (loadSchema_first_returns host path
               [ExistsSync path; ReadFileSync path] Examples.empty_catalog W);
      [reflexivity|].
    rewrite (probe_parsed _ _ _ _ E P); reflexivity.
  - intros host text W E P.
    assert (exists t1,
               match workspaceSchemaPath host with
               | Some path => probe host path
               | None => ret None
               end = (t1, Ok None)) as [t1 P1].
    { destruct (workspaceSchemaPath host) as [path|].
      - eexists; apply probe_missing, W; reflexivity.
      - eexists; reflexivity. }
    rewrite (loadSchema_second host t1 P1), (probe_parsed _ _ _ _ E P).
    reflexivity.
Qed.

End LoadingClaims.

Lemma C4_first_candidate_short_circuits_witness :
  @SchemaManager.loadSchema Reference.platform
    (Examples.host_with (SchemaManager.Content Examples.custom_text)
                        (SchemaManager.Content Examples.empty_text))
  = ([ExistsSync Examples.workspace_file; ReadFileSync Examples.workspace_file],
     Ok Examples.custom_catalog).
Proof.
  apply (C4_first_candidate_short_circuits (H := Reference.platform)
           (Examples.host_with (SchemaManager.Content Examples.custom_text)
                               (SchemaManager.Content Examples.empty_text))
           Examples.workspace_file Examples.custom_text Examples.custom_catalog).
  - reflexivity.
  - reflexivity.
  - vm_compute; reflexivity.
  - apply validateSchema_catalog; reflexivity.
Defined.

(** C3 at the failing input: the first candidate exists and holds the
    malformed text [{], the second exists and holds a valid catalog; the
    claim has the loader return the second candidate's catalog, and the
    loader returns the default catalog, which is another value. *)
Theorem C3_malformed_first_skips_second :
  @workspaceSchemaPath Reference.platform Examples.malformed_first
  = Some Examples.workspace_file
  /\ SchemaManager.file Examples.malformed_first Examples.workspace_file
     = SchemaManager.Content (str "{")
  /\ Reference.JSON_parse (str "{") = None
  /\ @extensionSchemaPath Reference.platform Examples.malformed_first
     = Examples.extension_file
  /\ SchemaManager.file Examples.malformed_first Examples.extension_file
     = SchemaManager.Content Examples.custom_text
  /\ Reference.JSON_parse Examples.custom_text = Some Examples.custom_catalog
  /\ SchemaManager.validateSchema Examples.custom_catalog = true
  /\ snd (@SchemaManager.loadSchema Reference.platform Examples.malformed_first)
     = Ok SchemaManager.getDefaultSchema
  /\ snd (@SchemaManager.loadSchema Reference.platform Examples.malformed_first)
     <> Ok Examples.custom_catalog.
Proof.
  repeat split; try (vm_compute; reflexivity).
  vm_compute; discriminate.
Qed.

Lemma C5_total_with_default_witness :
  snd (@SchemaManager.loadSchema Reference.platform
         (Examples.host_with SchemaManager.Unreadable
                             (SchemaManager.Content Examples.misshapen_text)))
  = Ok SchemaManager.getDefaultSchema
  /\ snd (@SchemaManager.loadSchema Reference.platform
            (Examples.host_with SchemaManager.Absent SchemaManager.Absent))
     = Ok SchemaManager.getDefaultSchema.
Proof.
  split.
  - apply (C5_total_with_default (H := Reference.platform)).
    + intros path E; injection E as <-.
      apply Unusable_unreadable; reflexivity.
    + apply (Unusable_wrong_shape _ _ Examples.misshapen_text
               (JObject [(str "types", JString (str "feat"))]));
        [reflexivity | vm_compute; reflexivity |].
      intros C; apply validateSchema_catalog in C; discriminate C.
  - apply (C5_total_with_default (H := Reference.platform)).
    + intros path E; injection E as <-.
      apply Unusable_missing; reflexivity.
    + apply Unusable_missing; reflexivity.
Defined.

Lemma C8_empty_types_accepted_witness :
  Reference.JSON_parse Examples.empty_text = Some Examples.empty_catalog
  /\ snd (@SchemaManager.loadSchema Reference.platform
            (Examples.host_with (SchemaManager.Content Examples.empty_text)
                                (SchemaManager.Content Examples.custom_text)))
     = Ok Examples.empty_catalog
  /\ snd (@SchemaManager.loadSchema Reference.platform
            (Examples.host_with SchemaManager.Absent
                                (SchemaManager.Content Examples.empty_text)))
     = Ok Examples.empty_catalog.
Proof.
  split; [vm_compute; reflexivity|]. split.
  - apply (proj1 (proj2 (proj2 (proj2 (C8_empty_types_accepted
                                         (H := Reference.platform)))))
             _ Examples.workspace_file Examples.empty_text);
      [reflexivity | reflexivity | vm_compute; reflexivity].
  - apply (proj2 (proj2 (proj2 (proj2 (C8_empty_types_accepted
                                         (H := Reference.platform)))))
             _ Examples.empty_text).
    + intros path E; injection E as <-; reflexivity.
    + reflexivity.
    + vm_compute; reflexivity.
Defined.

(* ================================================================= *)
(** ** The message handler *)

Section Handling.
Context `{Platform}.
Import MessageHandler.

(** A call of [sendToWebview] is recorded, never throws, and delivers its
    message exactly when the panel is live. *)
Lemma sendToWebview_runs (h : Handler) (command : jsstring) (data : JSValue) :
  exists tail,
    sendToWebview h command data = (Send command data :: tail, Ok tt)
    /\ sent tail = [] /\ builds tail = []
    /\ posted tail = if live h then [(command, data)] else [].
Proof.
  unfold sendToWebview, live.
  destruct (panel h); eexists; (split; [reflexivity|]); repeat split.
Qed.

Lemma missing_string (s : jsstring) :
  missing (JString s) = ([], Ok (negb (truthy_str (trim s)))).
Proof.
  unfold missing; simpl. destruct s as [|c s]; reflexivity.
Qed.

Lemma missing_blank (v : JSValue) : blank v -> missing v = ([], Ok true).
Proof.
  intros [->|[s [-> E]]]; [reflexivity|].
  rewrite missing_string, E; reflexivity.
Qed.

(** The test of a required field says "missing", or says "present" of a
    string that does not trim to nothing, or throws. *)
Lemma missing_cases (v : JSValue) :
  missing v = ([], Ok true)
  \/ (missing v = ([], Ok false) /\ exists s, v = JString s /\ trim s <> [])
  \/ exists e, missing v = ([], Throw e).
Proof.
  destruct v as [| |[|]|x|s|l|l]; try (left; reflexivity);
    try (right; right; eexists; reflexivity).
  - destruct x; try (left; reflexivity);
      right; right; eexists; reflexivity.
  - rewrite missing_string. destruct (truthy_str (trim s)) eqn:E.
    + right; left; split; [reflexivity|].
      exists s; split; [reflexivity | apply truthy_str_true, E].
    + left; reflexivity.
Qed.

Lemma object_guard (v : JSValue) :
  negb (truthy v) || negb (is_object_tag (typeof v)) = negb (is_object v).
Proof.
  destruct v as [| |[|]|x|s|l|l]; try reflexivity.
  - destruct x; reflexivity.
  - destruct s; reflexivity.
Qed.

(** Every way a submission can be turned down ends with one error message
    and no call of the builder. *)
Lemma handleSubmitForm_invalid (h : Handler) (data : JSValue) :
  is_object data = false
  \/ blank (field data (str "type"))
  \/ blank (field data (str "subject")) ->
  exists text t,
    handleSubmitForm h data = (t, Ok tt)
    /\ sent t = [(str "error", JString text)]
    /\ builds t = []
    /\ posted t = if live h then [(str "error", JString text)] else [].
Proof.
  intros Hbad. unfold handleSubmitForm, live; cbv zeta.
  rewrite object_guard.
  destruct (is_object data) eqn:O; cbn [negb].
  - destruct Hbad as [Hbad|[Hbad|Hbad]]; [discriminate| |].
    + rewrite (missing_blank _ Hbad).
      destruct h as [[| |e|] hs]; eexists; eexists;
        (split; [reflexivity|]); repeat split.
    + destruct (missing_cases (field data (str "type")))
        as [E|[[E _]|[e E]]]; rewrite E.
      * destruct h as [[| |e|] hs]; eexists; eexists;
          (split; [reflexivity|]); repeat split.
      * rewrite (missing_blank _ Hbad).
        destruct h as [[| |e|] hs]; eexists; eexists;
          (split; [reflexivity|]); repeat split.
      * destruct h as [[| |e'|] hs]; eexists; eexists;
          (split; [reflexivity|]); repeat split.
  - destruct h as [[| |e|] hs]; eexists; eexists;
      (split; [reflexivity|]); repeat split.
Qed.

(** A submission with its two required fields, a string scope and a body
    that is a string or falsy reaches the builder once and its text is
    sent back. *)
Lemma handleSubmitForm_valid (h : Handler) (data : JSValue)
      (t sc su b : jsstring) :
  field data (str "type") = JString t -> trim t <> [] ->
  field data (str "subject") = JString su -> trim su <> [] ->
  field data (str "scope") = JString sc ->
  body_text (field data (str "body")) = Some b ->
  let commitMessage :=
    CommitBuilder.buildCommitMessage
      {| CommitBuilder.type := t; CommitBuilder.scope := sc;
         CommitBuilder.subject := su; CommitBuilder.body := b |} in
  exists tr,
    handleSubmitForm h data = (tr, Ok tt)
    /\ builds tr = [data]
    /\ sent tr = [(str "commitResult", JString commitMessage)]
    /\ posted tr
       = if live h then [(str "commitResult", JString commitMessage)] else [].
Proof.
  intros Et Nt Eu Nu Es Eb; cbv zeta.
  assert (is_object data = true) as O
      by (destruct data; simpl in Et; try discriminate Et; reflexivity).
  unfold handleSubmitForm, live; cbv zeta.
  rewrite object_guard, O; cbn [negb].
  rewrite Et, Eu, !missing_string.
  apply truthy_str_true in Nt, Nu; rewrite Nt, Nu.
  rewrite (buildCommitMessage_typed data t sc su b Et Es Eu Eb).
  destruct h as [[| |e|] hs]; eexists;
    (split; [reflexivity|]); repeat split.
Qed.

(** With a scope that is not a string the builder is entered once and
    throws; the handler answers with its catch-all error. *)
Lemma handleSubmitForm_scope_not_string (h : Handler) (data : JSValue)
      (t su : jsstring) :
  field data (str "type") = JString t -> trim t <> [] ->
  field data (str "subject") = JString su -> trim su <> [] ->
  (forall sc, field data (str "scope") <> JString sc) ->
  exists tr,
    handleSubmitForm h data = (tr, Ok tt)
    /\ builds tr = [data]
    /\ sent tr = [(str "error", JString (str "Gagal membuat commit message"))].
Proof.
  intros Et Nt Eu Nu Ns.
  assert (is_object data = true) as O
      by (destruct data; simpl in Et; try discriminate Et; reflexivity).
  assert (exists e, CommitBuilderJS.buildCommitMessage data = Throw e) as [e B].
  { destruct (string_field_not_nullish _ _ _ Et) as [Nu' Nn'].
    rewrite (buildCommitMessage_fields data Nu' Nn').
    unfold CommitBuilderJS.formatHeader.
    rewrite Et; cbn [call_trim bindR].
    destruct (field data (str "scope")) as [| |x|x|sc|l|l];
      try (eexists; reflexivity).
    destruct (Ns sc eq_refl). }
  unfold handleSubmitForm; cbv zeta.
  rewrite object_guard, O; cbn [negb].
  rewrite Et, Eu, !missing_string.
  apply truthy_str_true in Nt, Nu; rewrite Nt, Nu, B.
  destruct h as [[| |e'|] hs]; eexists;
    (split; [reflexivity|]); repeat split.
Qed.

End Handling.

Section HandlingClaims.
Context `{Platform}.
Import MessageHandler.

(** C9, as the code has it: a payload that is not an object, or whose type
    or subject is absent, empty or white space only, gets one error message
    and the builder is not called. A payload whose type and subject are
    strings that do not trim to nothing, whose scope is a string and whose
    body is a string or falsy reaches the builder exactly once, and the
    text it returns is sent as the commitResult message. Each message is
    delivered when the panel is live. *)
Theorem C9_submit_validation (h : Handler) (data : JSValue) :
  (is_object data = false
   \/ blank (field data (str "type"))
   \/ blank (field data (str "subject")) ->
   exists text t,
     handleSubmitForm h data = (t, Ok tt)
     /\ sent t = [(str "error", JString text)]
     /\ builds t = []
     /\ posted t = if live h then [(str "error", JString text)] else [])
  /\ (forall t sc su b : jsstring,
         field data (str "type") = JString t -> trim t <> [] ->
         field data (str "subject") = JString su -> trim su <> [] ->
         field data (str "scope") = JString sc ->
         body_text (field data (str "body")) = Some b ->
         exists tr,
           handleSubmitForm h data = (tr, Ok tt)
           /\ builds tr = [data]
           /\ sent tr
              = [(str "commitResult",
                  JString (CommitBuilder.buildCommitMessage
                             {| CommitBuilder.type := t;
                                CommitBuilder.scope := sc;
                                CommitBuilder.subject := su;
                                CommitBuilder.body := b |}))]
           /\ posted tr = if live h then sent tr else []).
Proof.
  split.
  - apply handleSubmitForm_invalid.
  - intros t sc su b Et Nt Eu Nu Es Eb.
    destruct (handleSubmitForm_valid h data t sc su b Et Nt Eu Nu Es Eb)
      as [tr [E [B [S P]]]].
    exists tr; rewrite S; auto.
Qed.


End HandlingClaims.

Lemma C9_submit_validation_witness :
  (exists text t,
      @MessageHandler.handleSubmitForm Reference.platform
        (Examples.handler MessageHandler.WebviewLive) (JObject [])
      = (t, Ok tt)
      /\ MessageHandler.sent t = [(str "error", JString text)]
      /\ MessageHandler.builds t = []
      /\ MessageHandler.posted t = [(str "error", JString text)])
  /\ (exists tr,
         @MessageHandler.handleSubmitForm Reference.platform
           (Examples.handler MessageHandler.WebviewLive)
           (form_object Examples.feat_form)
         = (tr, Ok tt)
         /\ MessageHandler.builds tr = [form_object Examples.feat_form]
         /\ MessageHandler.sent tr
            = [(str "commitResult", JString (str "feat(auth): tambah login"))]
         /\ MessageHandler.posted tr = MessageHandler.sent tr).
Proof.
  split.
  - apply (proj1 (C9_submit_validation (H := Reference.platform)
                    (Examples.handler MessageHandler.WebviewLive) (JObject []))).
    right; left; left; reflexivity.
  - apply (proj2 (C9_submit_validation (H := Reference.platform)
                    (Examples.handler MessageHandler.WebviewLive)
                    (form_object Examples.feat_form))
             (str "feat") (str "auth") (str "tambah login") []);
      try reflexivity; discriminate.
Defined.

(** C9, as stated, fails: the payload [{ type: 'feat', subject: 'tambah
    login' }] has a type and a subject that do not trim to nothing; the
    builder is entered once, throws on the absent scope, and the handler
    sends an error message, not a commitResult. *)
Lemma C9_scopeless_counterexample :
  field Examples.scopeless_payload (str "type") = JString (str "feat")
  /\ trim (str "feat") = str "feat"
  /\ field Examples.scopeless_payload (str "subject")
     = JString (str "tambah login")
  /\ trim (str "tambah login") = str "tambah login"
  /\ MessageHandler.builds
       (fst (@MessageHandler.handleSubmitForm Reference.platform
               (Examples.handler MessageHandler.WebviewLive)
               Examples.scopeless_payload))
     = [Examples.scopeless_payload]
  /\ MessageHandler.sent
       (fst (@MessageHandler.handleSubmitForm Reference.platform
               (Examples.handler MessageHandler.WebviewLive)
               Examples.scopeless_payload))
     = [(str "error", JString (str "Gagal membuat commit message"))]
  /\ MessageHandler.posted
       (fst (@MessageHandler.handleSubmitForm Reference.platform
               (Examples.handler MessageHandler.WebviewLive)
               Examples.scopeless_payload))
     = [(str "error", JString (str "Gagal membuat commit message"))].
Proof. repeat split; vm_compute; reflexivity. Qed.



(* ================================================================= *)
(** ** More on the formatter *)

Section TrimTwice.

Lemma trimStart_fixed (s : jsstring) :
  (forall c r, s = c :: r -> is_white_space c = false) -> trimStart s = s.
Proof.
  destruct s as [|c r]; [reflexivity|]; intros Hc; simpl.
  rewrite (Hc c r eq_refl); reflexivity.
Qed.

Lemma trimEnd_fixed (s : jsstring) :
  (forall r c, s = r ++ [c] -> is_white_space c = false) -> trimEnd s = s.
Proof.
  intros Hc; unfold trimEnd.
  rewrite trimStart_fixed; [apply rev_involutive|].
  intros c r E. apply (Hc (rev r) c).
  rewrite <- (rev_involutive s), E; reflexivity.
Qed.

Lemma trim_idempotent (s : jsstring) : trim (trim s) = trim s.
Proof.
  unfold trim at 1.
  rewrite trimStart_fixed by (intros c r; apply trim_head).
  apply trimEnd_fixed; intros r c; apply trim_last.
Qed.

End TrimTwice.

Section FormatterExtras.
Context `{Platform}.
Import CommitBuilder.

Lemma call_trim_result (v : JSValue) :
  (exists s, v = JString s /\ call_trim v = Ok (trim s))
  \/ ((forall s, v <> JString s)
      /\ (call_trim v = Throw (TypeError_nullish (str "trim"))
          \/ call_trim v = Throw (TypeError_not_a_function (str "trim")))).
Proof.
  destruct v as [| |b|x|s|l|l];
    try (right; split; [intros s'; discriminate | auto; fail]).
  left; exists s; auto.
Qed.

Lemma buildCommitMessage_nullish (data : JSValue) :
  data = JUndefined \/ data = JNull ->
  CommitBuilderJS.buildCommitMessage data
  = Throw (TypeError_nullish (str "type")).
Proof. intros [-> | ->]; reflexivity. Qed.

(** On anything but [null] and [undefined] the run-time builder returns
    exactly on a typed form, with the typed builder's text; otherwise it
    throws a TypeError about [trim]. *)
Lemma buildCommitMessage_result (data : JSValue) :
  data <> JUndefined -> data <> JNull ->
  (exists fd, typed_fields data fd
              /\ CommitBuilderJS.buildCommitMessage data
                 = Ok (buildCommitMessage fd))
  \/ ((forall fd, ~ typed_fields data fd)
      /\ (CommitBuilderJS.buildCommitMessage data
          = Throw (TypeError_nullish (str "trim"))
          \/ CommitBuilderJS.buildCommitMessage data
             = Throw (TypeError_not_a_function (str "trim")))).
Proof.
  intros Nu' Nn'.
  pose proof (buildCommitMessage_fields data Nu' Nn') as F. rewrite F.
  unfold CommitBuilderJS.formatHeader, CommitBuilderJS.formatBody.
  destruct (call_trim_result (field data (str "type")))
    as [[t [Et Ct]]|[Nt Ct]].
  2:{ right; split; [intros fd [E _]; exact (Nt _ E)|].
      destruct Ct as [-> | ->]; auto. }
  destruct (call_trim_result (field data (str "scope")))
    as [[sc [Es Cs]]|[Ns Cs]].
  2:{ right; split; [intros fd [_ [E _]]; exact (Ns _ E)|].
      rewrite Ct; cbn [bindR]. destruct Cs as [-> | ->]; auto. }
  destruct (call_trim_result (field data (str "subject")))
    as [[su [Eu Cu]]|[Nu Cu]].
  2:{ right; split; [intros fd [_ [_ [E _]]]; exact (Nu _ E)|].
      rewrite Ct, Cs; cbn [bindR]. destruct Cu as [-> | ->]; auto. }
  destruct (body_text (field data (str "body"))) as [b|] eqn:Eb.
  - left. exists {| type := t; scope := sc; subject := su; body := b |}.
    split; [repeat split; assumption|].
    rewrite <- (buildCommitMessage_typed data t sc su b Et Es Eu Eb).
    symmetry; exact F.
  - right; split.
    + intros fd [_ [_ [_ E]]]. rewrite Eb in E; discriminate.
    + rewrite Ct, Cs, Cu; cbn [bindR].
      destruct (truthy_str (trim sc)); cbn [bindR];
        destruct (field data (str "body")) as [| |[|]|x|s|l|l];
        try discriminate Eb; try (cbn; auto; fail);
        destruct x; try discriminate Eb; cbn; auto.
Qed.

(** X1: white space around the type, the scope, the subject or the body
    never changes the message: formatting the trimmed fields gives the same
    text as formatting the fields as entered. *)
Theorem X1_surrounding_space_is_ignored (fd : FormData) :
  buildCommitMessage (trimmed fd) = buildCommitMessage fd
  /\ formatHeader (trim (type fd)) (trim (scope fd)) (trim (subject fd))
     = formatHeader (type fd) (scope fd) (subject fd).
Proof.
  assert (forall t sc su,
             formatHeader (trim t) (trim sc) (trim su) = formatHeader t sc su) as Hh.
  { intros t sc su; unfold formatHeader; rewrite !trim_idempotent; reflexivity. }
  split; [|apply Hh].
  destruct fd as [t sc su b]; unfold trimmed; simpl.
  destruct (truthy_str (trim b)) eqn:E.
  - apply truthy_str_true in E.
    rewrite !buildCommitMessage_body by (simpl; rewrite ?trim_idempotent; exact E).
    simpl; rewrite Hh, trim_idempotent; reflexivity.
  - apply truthy_str_false in E.
    rewrite !buildCommitMessage_no_body
      by (simpl; rewrite ?trim_idempotent; exact E).
    simpl; apply Hh.
Qed.

(** X2: at run time the builder returns a text exactly when the type, the
    scope and the subject of the object are strings and its body is a
    string or falsy, and the text is the typed builder's. On [null] and
    [undefined] it throws the TypeError of reading [type]; on every other
    value that is not such an object it throws a TypeError about [trim]. *)
Theorem X2_builder_throws_exactly_on_untyped_fields (data : JSValue) :
  (forall text,
      CommitBuilderJS.buildCommitMessage data = Ok text
      <-> exists fd, typed_fields data fd /\ text = buildCommitMessage fd)
  /\ (data = JUndefined \/ data = JNull ->
      CommitBuilderJS.buildCommitMessage data
      = Throw (TypeError_nullish (str "type")))
  /\ (data <> JUndefined -> data <> JNull ->
      (forall fd, ~ typed_fields data fd) ->
      CommitBuilderJS.buildCommitMessage data
      = Throw (TypeError_nullish (str "trim"))
      \/ CommitBuilderJS.buildCommitMessage data
         = Throw (TypeError_not_a_function (str "trim"))).
Proof.
  split; [|split].
  - assert (data = JUndefined \/ data = JNull
            \/ (data <> JUndefined /\ data <> JNull)) as [D|[D|[Nu' Nn']]]
        by (destruct data; auto; right; right; split; discriminate).
    + subst data; intros text; split; [discriminate|].
      intros [fd [[Et _] _]]; discriminate Et.
    + subst data; intros text; split; [discriminate|].
      intros [fd [[Et _] _]]; discriminate Et.
    + destruct (buildCommitMessage_result data Nu' Nn') as [[fd [T E]]|[N E]].
      * intros text; rewrite E; split.
        -- intros Et; injection Et as <-; exists fd; auto.
        -- intros [fd' [[Et [Es [Eu Eb]]] ->]].
           destruct T as [Et' [Es' [Eu' Eb']]].
           destruct fd as [t sc su b], fd' as [t' sc' su' b']; simpl in *.
           congruence.
      * intros text; split.
        -- intros Et; destruct E as [E|E]; rewrite E in Et; discriminate.
        -- intros [fd [T _]]; destruct (N fd T).
  - apply buildCommitMessage_nullish.
  - intros Nu' Nn' Nfd.
    destruct (buildCommitMessage_result data Nu' Nn') as [[fd [T E]]|[N E]];
      [destruct (Nfd fd T) | exact E].
Qed.

(** X20: the length of the header. It is the length of the lowercased
    trimmed type, plus the trimmed scope and its two parentheses when there
    is a scope, plus two for the colon and the space, plus the trimmed
    subject; so the header is always at least two units longer than the
    trimmed subject, and a subject that fills the 72 units of its input
    field gives a header of more than 72. *)
Theorem X20_header_is_longer_than_subject (type scope subject : jsstring) :
  length (formatHeader type scope subject)
  = length (toLowerCase (trim type))
    + (if truthy_str (trim scope) then length (trim scope) + 2 else 0)
    + 2 + length (trim subject)
  /\ length (trim subject) + 2 <= length (formatHeader type scope subject)
  /\ length (trim subject) <= length subject.
Proof.
  assert (length (formatHeader type scope subject)
          = length (toLowerCase (trim type))
            + (if truthy_str (trim scope) then length (trim scope) + 2 else 0)
            + 2 + length (trim subject)) as E.
  { unfold formatHeader. destruct (truthy_str (trim scope));
      rewrite !length_app; simpl; lia. }
  split; [exact E|]. split; [rewrite E; lia|].
  destruct (trim_split subject) as [pre [post [Es _]]].
  rewrite Es at 2. rewrite !length_app; lia.
Qed.

End FormatterExtras.

Lemma X2_builder_throws_exactly_on_untyped_fields_witness :
  @CommitBuilderJS.buildCommitMessage Reference.platform
    (form_object Examples.feat_form)
  = Ok (str "feat(auth): tambah login")
  /\ @CommitBuilderJS.buildCommitMessage Reference.platform JNull
     = Throw (TypeError_nullish (str "type"))
  /\ (@CommitBuilderJS.buildCommitMessage Reference.platform
        MoreExamples.numeric_scope
      = Throw (TypeError_nullish (str "trim"))
      \/ @CommitBuilderJS.buildCommitMessage Reference.platform
           MoreExamples.numeric_scope
         = Throw (TypeError_not_a_function (str "trim"))).
Proof.
  split; [|split].
  - apply (proj1 (X2_builder_throws_exactly_on_untyped_fields
                    (H := Reference.platform) (form_object Examples.feat_form))).
    exists Examples.feat_form; repeat split.
  - apply (proj1 (proj2 (X2_builder_throws_exactly_on_untyped_fields
                           (H := Reference.platform) JNull))).
    right; reflexivity.
  - apply (proj2 (proj2 (X2_builder_throws_exactly_on_untyped_fields
                           (H := Reference.platform)
                           MoreExamples.numeric_scope))).
    + discriminate.
    + discriminate.
    + intros fd [_ [E _]]; discriminate E.
Defined.

(* ================================================================= *)
(** ** More on the schema loader *)

Section LoaderRuns.
Context `{Platform}.
Import SchemaManager.

Lemma probe_run (host : Host) (path : jsstring) :
  probe host path = (probe_ops host path, probe_outcome host path).
Proof.
  unfold probe, probe_ops, probe_outcome, existsSync, readFileSync, parse.
  destruct (file host path) as [| |text]; try reflexivity; simpl.
  destruct (JSON_parse text) as [v|]; simpl;
    [destruct (validateSchema v)|]; reflexivity.
Qed.

(** The whole run of the loader, from the outcomes of its probes. *)
Lemma loadSchema_run (host : Host) :
  loadSchema host
  = match
      match workspaceSchemaPath host with
      | Some path => (probe_ops host path, probe_outcome host path)
      | None => ([], Ok None)
      end
    with
    | (t1, Ok (Some v)) => (t1, Ok v)
    | (t1, Throw e) => (t1 ++ [ConsoleError e], Ok getDefaultSchema)
    | (t1, Ok None) =>
        match probe_outcome host (extensionSchemaPath host) with
        | Ok (Some v) => (t1 ++ probe_ops host (extensionSchemaPath host), Ok v)
        | Ok None =>
            (t1 ++ probe_ops host (extensionSchemaPath host), Ok getDefaultSchema)
        | Throw e =>
            (t1 ++ probe_ops host (extensionSchemaPath host) ++ [ConsoleError e],
             Ok getDefaultSchema)
        end
    end.
Proof.
  unfold loadSchema; rewrite loadSchema_try_probes.
  destruct (workspaceSchemaPath host) as [path|]; rewrite !probe_run.
  - destruct (probe_outcome host path) as [[v|]|e]; simpl;
      rewrite ?app_nil_r; try reflexivity.
    destruct (probe_outcome host (extensionSchemaPath host)) as [[v|]|e]; simpl;
      rewrite ?app_nil_r, ?app_assoc; reflexivity.
  - simpl.
    destruct (probe_outcome host (extensionSchemaPath host)) as [[v|]|e]; simpl;
      rewrite ?app_nil_r; reflexivity.
Qed.

Lemma probe_outcome_some (host : Host) (path : jsstring) (v : JSValue) :
  probe_outcome host path = Ok (Some v) ->
  exists text,
    file host path = Content text /\ JSON_parse text = Some v /\ is_catalog v.
Proof.
  unfold probe_outcome.
  destruct (file host path) as [| |text]; try discriminate.
  destruct (JSON_parse text) as [w|] eqn:P; try discriminate.
  destruct (validateSchema w) eqn:V; try discriminate.
  intros E; injection E as <-.
  exists text; split; [reflexivity|]. split; [exact P|].
  apply validateSchema_catalog, V.
Qed.

Lemma probe_outcome_throw (host : Host) (path : jsstring) (e : Exn) :
  probe_outcome host path = Throw e ->
  (file host path = Unreadable /\ e = IOError path)
  \/ exists text,
      file host path = Content text /\ JSON_parse text = None
      /\ e = SyntaxError_JSON.
Proof.
  unfold probe_outcome.
  destruct (file host path) as [| |text]; try discriminate.
  - intros E; injection E as <-; left; auto.
  - destruct (JSON_parse text) as [w|] eqn:P; try discriminate.
    intros E; injection E as <-; right; exists text; auto.
Qed.

(** The loader always returns a catalog, and its events are file-system
    calls and [console.error] only. *)
Lemma loadSchema_returns (host : Host) :
  exists t v,
    loadSchema host = (t, Ok v) /\ is_catalog v
    /\ MessageHandler.sent t = [] /\ MessageHandler.posted t = []
    /\ MessageHandler.builds t = [] /\ MessageHandler.logged t = [].
Proof.
  rewrite loadSchema_run.
  assert (forall path v, probe_outcome host path = Ok (Some v) -> is_catalog v)
    as Hc.
  { intros path v E; destruct (probe_outcome_some _ _ _ E) as [text [_ [_ C]]].
    exact C. }
  pose proof default_is_catalog as Hd.
  destruct (workspaceSchemaPath host) as [path|].
  - destruct (probe_outcome host path) as [[v|]|e] eqn:E1.
    + unfold probe_ops; destruct (file host path);
        eexists; eexists; (split; [reflexivity|]); repeat split; eauto.
    + destruct (probe_outcome host (extensionSchemaPath host)) as [[v|]|e] eqn:E2;
        unfold probe_ops;
        destruct (file host path), (file host (extensionSchemaPath host));
        eexists; eexists; (split; [reflexivity|]); repeat split; eauto.
    + unfold probe_ops; destruct (file host path);
        eexists; eexists; (split; [reflexivity|]); repeat split; eauto.
  - destruct (probe_outcome host (extensionSchemaPath host)) as [[v|]|e] eqn:E2;
      unfold probe_ops; destruct (file host (extensionSchemaPath host));
      eexists; eexists; (split; [reflexivity|]); repeat split; eauto.
Qed.

End LoaderRuns.

Section LoaderExtras.
Context `{Platform}.
Import SchemaManager.

(** X3: [validateSchema] answers true exactly on an object whose [types]
    is an array of objects that each carry a non-empty string [id] and a
    non-empty string [label]; other properties are not looked at. *)
Theorem X3_validateSchema_accepts_exactly_catalogs (v : JSValue) :
  validateSchema v = true <-> is_catalog v.
Proof. apply validateSchema_catalog. Qed.

(** X4: the cascade. When no workspace is open, or the workspace file is
    missing, or it parses but is not a catalog, and the bundled file parses
    to a catalog, the loader returns the bundled catalog after reading the
    bundled file. *)
Theorem X4_second_candidate_is_used (host : Host) (text : jsstring) (v : JSValue) :
  (forall path, workspaceSchemaPath host = Some path ->
                file host path = Absent
                \/ exists text1 v1,
                    file host path = Content text1
                    /\ JSON_parse text1 = Some v1 /\ ~ is_catalog v1) ->
  file host (extensionSchemaPath host) = Content text ->
  JSON_parse text = Some v ->
  is_catalog v ->
  snd (loadSchema host) = Ok v
  /\ In (extensionSchemaPath host) (reads (fst (loadSchema host)))
  /\ console_errors (fst (loadSchema host)) = [].
Proof.
  intros W E P C. rewrite loadSchema_run.
  assert (probe_outcome host (extensionSchemaPath host) = Ok (Some v)) as O2.
  { unfold probe_outcome; rewrite E, P.
    apply validateSchema_catalog in C; rewrite C; reflexivity. }
  assert (probe_ops host (extensionSchemaPath host)
          = [ExistsSync (extensionSchemaPath host);
             ReadFileSync (extensionSchemaPath host)]) as T2
      by (unfold probe_ops; rewrite E; reflexivity).
  rewrite O2, T2.
  destruct (workspaceSchemaPath host) as [path|].
  - destruct (W path eq_refl) as [A|[text1 [v1 [E1 [P1 N1]]]]].
    + unfold probe_outcome, probe_ops; rewrite A; simpl; auto.
    + unfold probe_outcome, probe_ops; rewrite E1, P1.
      rewrite (validateSchema_rejects _ N1); simpl; auto.
  - simpl; auto.
Qed.

(** X5: whatever the files hold, the loader returns either the default
    catalog or the value parsed from the text of one of its two candidate
    files, and that value is a catalog: nothing unvalidated gets out. *)
Theorem X5_result_is_default_or_validated_candidate (host : Host) :
  exists v,
    snd (loadSchema host) = Ok v
    /\ (v = getDefaultSchema
        \/ exists path text,
            (workspaceSchemaPath host = Some path
             \/ path = extensionSchemaPath host)
            /\ file host path = Content text
            /\ JSON_parse text = Some v
            /\ is_catalog v).
Proof.
  rewrite loadSchema_run.
  destruct (workspaceSchemaPath host) as [path|].
  - destruct (probe_outcome host path) as [[v|]|e] eqn:E1.
    + exists v; split; [reflexivity|]. right.
      destruct (probe_outcome_some _ _ _ E1) as [text [E [P C]]].
      exists path, text; auto.
    + destruct (probe_outcome host (extensionSchemaPath host)) as [[v|]|e] eqn:E2;
        eexists; (split; [reflexivity|]); auto.
      right. destruct (probe_outcome_some _ _ _ E2) as [text [E [P C]]].
      exists (extensionSchemaPath host), text; auto.
    + eexists; split; [reflexivity|]; auto.
  - destruct (probe_outcome host (extensionSchemaPath host)) as [[v|]|e] eqn:E2;
      eexists; (split; [reflexivity|]); auto.
    right. destruct (probe_outcome_some _ _ _ E2) as [text [E [P C]]].
    exists (extensionSchemaPath host), text; auto.
Qed.

End LoaderExtras.

Lemma X3_validateSchema_accepts_exactly_catalogs_witness :
  SchemaManager.validateSchema Examples.custom_catalog = true
  /\ is_catalog SchemaManager.getDefaultSchema.
Proof.
  split.
  - apply (proj2 (X3_validateSchema_accepts_exactly_catalogs
                    Examples.custom_catalog)).
    exists [(str "types",
             JArray [SchemaManager.commitType (str "wip")
                                              (str "Work in progress")])],
           [SchemaManager.commitType (str "wip") (str "Work in progress")].
    repeat split. constructor; [|constructor].
    exists [(str "id", JString (str "wip"));
            (str "label", JString (str "Work in progress"))],
           (str "wip"), (str "Work in progress").
    repeat split; discriminate.
  - apply (proj1 (X3_validateSchema_accepts_exactly_catalogs
                    SchemaManager.getDefaultSchema)).
    reflexivity.
Defined.

Lemma X4_second_candidate_is_used_witness :
  snd (@SchemaManager.loadSchema Reference.platform MoreExamples.misshapen_first)
  = Ok Examples.custom_catalog
  /\ snd (@SchemaManager.loadSchema Reference.platform MoreExamples.no_workspace)
     = Ok Examples.custom_catalog.
Proof.
  split.
  - refine (proj1 (X4_second_candidate_is_used (H := Reference.platform)
                     MoreExamples.misshapen_first Examples.custom_text
                     Examples.custom_catalog _ _ _ _)).
    + intros path E. right.
      exists Examples.misshapen_text,
             (JObject [(str "types", JString (str "feat"))]).
      vm_compute in E; injection E as <-.
      split; [vm_compute; reflexivity|]. split; [vm_compute; reflexivity|].
      intros C; apply validateSchema_catalog in C; discriminate C.
    + vm_compute; reflexivity.
    + vm_compute; reflexivity.
    + apply validateSchema_catalog; vm_compute; reflexivity.
  - refine (proj1 (X4_second_candidate_is_used (H := Reference.platform)
                     MoreExamples.no_workspace Examples.custom_text
                     Examples.custom_catalog _ _ _ _)).
    + intros path E; discriminate E.
    + vm_compute; reflexivity.
    + vm_compute; reflexivity.
    + apply validateSchema_catalog; vm_compute; reflexivity.
Defined.

Section LoaderDiscipline.
Context `{Platform}.
Import SchemaManager.

(** X6: the loader's use of the file system. It reads only a path it has
    tested with [existsSync] and found present; it tests only its two
    candidate paths, at most two in all; and it neither logs to the output
    channel, nor sends to the webview, nor calls the builder. *)
Theorem X6_reads_only_tested_candidates (host : Host) :
  let t := fst (loadSchema host) in
  (forall p, In p (reads t) -> In p (tests t) /\ file host p <> Absent)
  /\ (forall p, In p (tests t) ->
                workspaceSchemaPath host = Some p
                \/ p = extensionSchemaPath host)
  /\ length (reads t) <= length (tests t)
  /\ length (tests t) <= 2
  /\ MessageHandler.sent t = [] /\ MessageHandler.posted t = []
  /\ MessageHandler.builds t = [] /\ MessageHandler.logged t = [].
Proof.
  cbv zeta. rewrite loadSchema_run. unfold probe_outcome, probe_ops.
  destruct (workspaceSchemaPath host) as [path|];
    [ destruct (file host path) as [| |text1] eqn:F1;
      [ | | destruct (JSON_parse text1) as [v1|];
            [destruct (validateSchema v1)|] ] | ];
    try (destruct (file host (extensionSchemaPath host)) as [| |text2] eqn:F2;
         [ | | destruct (JSON_parse text2) as [v2|];
               [destruct (validateSchema v2)|] ]);
    simpl; repeat split; try lia;
    intros; simpl in *;
    intuition (subst; auto; congruence).
Qed.

(** X7: [console.error] is called at most once, and only for a candidate
    whose read failed or whose text is not JSON; the loader then returns
    the default catalog. *)
Theorem X7_console_error_means_default (host : Host) :
  console_errors (fst (loadSchema host)) = []
  \/ exists e path,
      console_errors (fst (loadSchema host)) = [e]
      /\ snd (loadSchema host) = Ok getDefaultSchema
      /\ (workspaceSchemaPath host = Some path
          \/ path = extensionSchemaPath host)
      /\ ((file host path = Unreadable /\ e = IOError path)
          \/ exists text,
              file host path = Content text /\ JSON_parse text = None
              /\ e = SyntaxError_JSON).
Proof.
  assert (forall path, console_errors (probe_ops host path) = []) as Hp
      by (intros path; unfold probe_ops; destruct (file host path); reflexivity).
  assert (forall a b, console_errors (a ++ b) = console_errors a ++ console_errors b)
    as Happ by (intros a b; apply flat_map_app).
  rewrite loadSchema_run.
  destruct (workspaceSchemaPath host) as [path|].
  - destruct (probe_outcome host path) as [[v|]|e] eqn:E1; simpl.
    + left; apply Hp.
    + destruct (probe_outcome host (extensionSchemaPath host)) as [[v|]|e] eqn:E2;
        simpl; rewrite ?Happ, ?Hp; simpl; auto.
      right; exists e, (extensionSchemaPath host); repeat split; auto.
      apply probe_outcome_throw, E2.
    + rewrite Happ, Hp; simpl.
      right; exists e, path; repeat split; auto.
      apply probe_outcome_throw, E1.
  - simpl.
    destruct (probe_outcome host (extensionSchemaPath host)) as [[v|]|e] eqn:E2;
      simpl; rewrite ?Happ, ?Hp; simpl; auto.
    right; exists e, (extensionSchemaPath host); repeat split; auto.
    apply probe_outcome_throw, E2.
Qed.

(** X8: with no workspace folder open (the folder list is undefined or
    empty) the loader tests the bundled schema and nothing else. *)
Theorem X8_no_workspace_only_bundled (host : Host) :
  workspaceFolders host = None \/ workspaceFolders host = Some [] ->
  tests (fst (loadSchema host)) = [extensionSchemaPath host].
Proof.
  intros W.
  assert (workspaceSchemaPath host = None) as E
      by (unfold workspaceSchemaPath; destruct W as [-> | ->]; reflexivity).
  rewrite loadSchema_run, E. unfold probe_outcome, probe_ops.
  destruct (file host (extensionSchemaPath host)) as [| |text2];
    [ | | destruct (JSON_parse text2) as [v2|];
          [destruct (validateSchema v2)|] ]; reflexivity.
Qed.

(** X21: the loader depends on nothing but the folder list, the extension
    path and the two candidate files: two hosts that agree on these give
    the same run, whatever their other files hold. *)
Theorem X21_only_the_candidates_matter (host1 host2 : Host) :
  workspaceFolders host1 = workspaceFolders host2 ->
  extensionPath host1 = extensionPath host2 ->
  (forall path,
      workspaceSchemaPath host1 = Some path
      \/ path = extensionSchemaPath host1 ->
      file host1 path = file host2 path) ->
  loadSchema host1 = loadSchema host2.
Proof.
  intros W X F.
  assert (workspaceSchemaPath host2 = workspaceSchemaPath host1) as W2
      by (unfold workspaceSchemaPath; rewrite W; reflexivity).
  assert (extensionSchemaPath host2 = extensionSchemaPath host1) as X2
      by (unfold extensionSchemaPath; rewrite X; reflexivity).
  assert (forall path,
             workspaceSchemaPath host1 = Some path
             \/ path = extensionSchemaPath host1 ->
             probe_ops host1 path = probe_ops host2 path
             /\ probe_outcome host1 path = probe_outcome host2 path) as P.
  { intros path C; unfold probe_ops, probe_outcome; rewrite (F path C); auto. }
  rewrite !loadSchema_run, W2, X2.
  destruct (P (extensionSchemaPath host1) (or_intror eq_refl)) as [<- <-].
  destruct (workspaceSchemaPath host1) as [path|]; [|reflexivity].
  destruct (P path (or_introl eq_refl)) as [<- <-]; reflexivity.
Qed.

End LoaderDiscipline.

Lemma X6_reads_only_tested_candidates_witness :
  reads (fst (@SchemaManager.loadSchema Reference.platform
                MoreExamples.misshapen_first))
  = [Examples.workspace_file; Examples.extension_file]
  /\ SchemaManager.file MoreExamples.misshapen_first Examples.extension_file
     <> SchemaManager.Absent.
Proof.
  split; [vm_compute; reflexivity|].
  refine (proj2 (proj1 (X6_reads_only_tested_candidates
                          (H := Reference.platform)
                          MoreExamples.misshapen_first)
                       Examples.extension_file _)).
  vm_compute; auto.
Defined.

Lemma X8_no_workspace_only_bundled_witness :
  tests (fst (@SchemaManager.loadSchema Reference.platform
                MoreExamples.no_workspace))
  = [Examples.extension_file].
Proof.
  apply (X8_no_workspace_only_bundled (H := Reference.platform)
           MoreExamples.no_workspace).
  left; reflexivity.
Defined.

Lemma X21_only_the_candidates_matter_witness :
  @SchemaManager.loadSchema Reference.platform MoreExamples.misshapen_first
  = @SchemaManager.loadSchema Reference.platform
      MoreExamples.misshapen_first_and_readme.
Proof.
  refine (X21_only_the_candidates_matter (H := Reference.platform)
            MoreExamples.misshapen_first
            MoreExamples.misshapen_first_and_readme _ _ _).
  - reflexivity.
  - reflexivity.
  - intros path [E | ->].
    + vm_compute in E; injection E as <-; vm_compute; reflexivity.
    + vm_compute; reflexivity.
Defined.

(* ================================================================= *)
(** ** More on the message handler *)

Section Replies.
Context `{Platform}.
Import MessageHandler.

Lemma bind_ok {A B : Type} (t : Trace) (a : A) (k : A -> M B) :
  bind (t, Ok a) k = (t ++ fst (k a), snd (k a)).
Proof. unfold bind; destruct (k a); reflexivity. Qed.

Lemma sent_app (a b : Trace) : sent (a ++ b) = sent a ++ sent b.
Proof. apply flat_map_app. Qed.

Lemma posted_app (a b : Trace) : posted (a ++ b) = posted a ++ posted b.
Proof. apply flat_map_app. Qed.

Lemma builds_app (a b : Trace) : builds (a ++ b) = builds a ++ builds b.
Proof. apply flat_map_app. Qed.

Lemma logged_app (a b : Trace) : logged (a ++ b) = logged a ++ logged b.
Proof. apply flat_map_app. Qed.

Lemma sent_cons (ev : Event) (t : Trace) :
  sent (ev :: t)
  = match ev with Send c d => [(c, d)] | _ => [] end ++ sent t.
Proof. reflexivity. Qed.

Lemma posted_cons (ev : Event) (t : Trace) :
  posted (ev :: t)
  = match ev with PostMessage c d => [(c, d)] | _ => [] end ++ posted t.
Proof. reflexivity. Qed.

Lemma builds_cons (ev : Event) (t : Trace) :
  builds (ev :: t) = match ev with Build fd => [fd] | _ => [] end ++ builds t.
Proof. reflexivity. Qed.

Lemma logged_cons (ev : Event) (t : Trace) :
  logged (ev :: t) = match ev with Log l => [l] | _ => [] end ++ logged t.
Proof. reflexivity. Qed.

Lemma types_length_catalog (v : JSValue) :
  is_catalog v ->
  exists types,
    field v (str "types") = JArray types
    /\ types_length v = Ok (nat_to_str (length types)).
Proof.
  intros [props [types [-> [E _]]]]; exists types; split; [exact E|].
  unfold types_length, get; cbn [bindR]; rewrite E; reflexivity.
Qed.

(** What [handleLoadSchema] does after the loader has returned. *)
Lemma handleLoadSchema_after (h : Handler) (t0 : Trace) (v : JSValue)
      (count : jsstring) :
  SchemaManager.loadSchema (host h) = (t0, Ok v) ->
  types_length v = Ok count ->
  handleLoadSchema h
  = (t0 ++ Log (str "Schema loaded with " ++ count ++ str " types")
        :: fst (sendToWebview h (str "schemaData") v), Ok tt).
Proof.
  intros E TL. unfold handleLoadSchema. rewrite E, bind_ok, TL.
  destruct (sendToWebview_runs h (str "schemaData") v) as [tail [S _]].
  rewrite S; reflexivity.
Qed.

(** [handleLoadSchema] always ends normally, with one schemaData message
    that carries the catalog the loader returned. *)
Lemma handleLoadSchema_runs (h : Handler) :
  exists t v types,
    handleLoadSchema h = (t, Ok tt)
    /\ snd (SchemaManager.loadSchema (host h)) = Ok v
    /\ is_catalog v
    /\ field v (str "types") = JArray types
    /\ sent t = [(str "schemaData", v)]
    /\ builds t = []
    /\ posted t = (if live h then [(str "schemaData", v)] else [])
    /\ In (str "Schema loaded with " ++ nat_to_str (length types) ++ str " types")
          (logged t).
Proof.
  destruct (loadSchema_returns (host h)) as [t0 [v [E [C [S0 [P0 [B0 L0]]]]]]].
  destruct (types_length_catalog v C) as [types [Ef TL]].
  destruct (sendToWebview_runs h (str "schemaData") v) as [tail [S [S1 [B1 P1]]]].
  exists (t0 ++ Log (str "Schema loaded with " ++ nat_to_str (length types)
                     ++ str " types")
             :: fst (sendToWebview h (str "schemaData") v)), v, types.
  split; [apply (handleLoadSchema_after h t0 v _ E TL)|].
  rewrite E, S; cbn [fst snd].
  rewrite sent_app, posted_app, builds_app, logged_app.
  rewrite !sent_cons, !posted_cons, !builds_cons, !logged_cons.
  rewrite S0, P0, B0, L0, S1, B1, P1.
  repeat split; auto. simpl; auto.
Qed.

Lemma handleWebviewReady_runs (h : Handler) (t : Trace) :
  handleLoadSchema h = (t, Ok tt) ->
  handleWebviewReady h
  = (Log (str "Webview ready, loading schema...") :: t, Ok tt).
Proof. intros E; unfold handleWebviewReady; rewrite E; reflexivity. Qed.

End Replies.

Section SubmitCases.
Context `{Platform}.
Import MessageHandler.

(** A submission is decided by the tests of its two required fields. *)
Lemma handleSubmitForm_no_type (h : Handler) (data : JSValue) :
  is_object data = true ->
  missing (field data (str "type")) = ([], Ok true) ->
  exists t,
    handleSubmitForm h data = (t, Ok tt)
    /\ sent t = [(str "error", JString (str "Type commit harus diisi"))]
    /\ builds t = []
    /\ posted t = if live h then sent t else [].
Proof.
  intros O E. unfold handleSubmitForm, live; cbv zeta.
  rewrite object_guard, O; cbn [negb]. rewrite E.
  destruct h as [[| |e|] hs]; eexists; (split; [reflexivity|]); repeat split.
Qed.

Lemma handleSubmitForm_no_subject (h : Handler) (data : JSValue) :
  is_object data = true ->
  missing (field data (str "type")) = ([], Ok false) ->
  missing (field data (str "subject")) = ([], Ok true) ->
  exists t,
    handleSubmitForm h data = (t, Ok tt)
    /\ sent t = [(str "error", JString (str "Subject commit harus diisi"))]
    /\ builds t = []
    /\ posted t = if live h then sent t else [].
Proof.
  intros O E1 E2. unfold handleSubmitForm, live; cbv zeta.
  rewrite object_guard, O; cbn [negb]. rewrite E1, E2.
  destruct h as [[| |e|] hs]; eexists; (split; [reflexivity|]); repeat split.
Qed.

Lemma handleSubmitForm_field_throws (h : Handler) (data : JSValue) (e : Exn) :
  is_object data = true ->
  missing (field data (str "type")) = ([], Throw e)
  \/ (missing (field data (str "type")) = ([], Ok false)
      /\ missing (field data (str "subject")) = ([], Throw e)) ->
  exists t,
    handleSubmitForm h data = (t, Ok tt)
    /\ sent t = [(str "error", JString (str "Gagal membuat commit message"))]
    /\ builds t = []
    /\ posted t = if live h then sent t else [].
Proof.
  intros O E. unfold handleSubmitForm, live; cbv zeta.
  rewrite object_guard, O; cbn [negb].
  destruct E as [E|[E1 E2]]; [rewrite E | rewrite E1, E2];
    destruct h as [[| |e'|] hs]; eexists; (split; [reflexivity|]); repeat split.
Qed.

Lemma handleSubmitForm_not_object (h : Handler) (data : JSValue) :
  is_object data = false ->
  exists t,
    handleSubmitForm h data = (t, Ok tt)
    /\ sent t = [(str "error", JString (str "Data form tidak valid"))]
    /\ builds t = []
    /\ posted t = if live h then sent t else [].
Proof.
  intros O. unfold handleSubmitForm, live; cbv zeta.
  rewrite object_guard, O; cbn [negb].
  destruct h as [[| |e|] hs]; eexists; (split; [reflexivity|]); repeat split.
Qed.

(** With both required fields present the builder is entered once; its
    text is sent as the result, its exception as an error. *)
Lemma handleSubmitForm_built (h : Handler) (data : JSValue) :
  is_object data = true ->
  missing (field data (str "type")) = ([], Ok false) ->
  missing (field data (str "subject")) = ([], Ok false) ->
  exists t,
    handleSubmitForm h data = (t, Ok tt)
    /\ sent t
       = [match CommitBuilderJS.buildCommitMessage data with
          | Ok text => (str "commitResult", JString text)
          | Throw _ => (str "error", JString (str "Gagal membuat commit message"))
          end]
    /\ builds t = [data]
    /\ posted t = if live h then sent t else [].
Proof.
  intros O E1 E2. unfold handleSubmitForm, live; cbv zeta.
  rewrite object_guard, O; cbn [negb]. rewrite E1, E2.
  destruct (CommitBuilderJS.buildCommitMessage data) as [text|e];
    destruct h as [[| |e'|] hs]; eexists; (split; [reflexivity|]); repeat split.
Qed.

Lemma object_not_nullish (v : JSValue) :
  is_object v = true -> v <> JUndefined /\ v <> JNull.
Proof. intros O; split; intros ->; discriminate O. Qed.

Lemma missing_falsy (v : JSValue) :
  truthy v = false -> missing v = ([], Ok true).
Proof. intros E; unfold missing; rewrite E; reflexivity. Qed.

Lemma missing_present (s : jsstring) :
  trim s <> [] -> missing (JString s) = ([], Ok false).
Proof.
  intros N; rewrite missing_string.
  apply truthy_str_true in N; rewrite N; reflexivity.
Qed.

(** Every submission: one reply, no exception, at most one call of the
    builder; a result is sent only for a typed form whose type and subject
    do not trim to nothing, and it is the typed builder's text. *)
Lemma handleSubmitForm_reply (h : Handler) (data : JSValue) :
  exists t c d,
    handleSubmitForm h data = (t, Ok tt)
    /\ sent t = [(c, d)]
    /\ posted t = (if live h then sent t else [])
    /\ ((c = str "error" /\ exists text, d = JString text)
        \/ (c = str "commitResult"
            /\ exists fd,
                typed_fields data fd
                /\ trim (CommitBuilder.type fd) <> []
                /\ trim (CommitBuilder.subject fd) <> []
                /\ d = JString (CommitBuilder.buildCommitMessage fd)))
    /\ (builds t = [] \/ builds t = [data]).
Proof.
  destruct (is_object data) eqn:O.
  2:{ destruct (handleSubmitForm_not_object h data O) as [t [E [S [B P]]]].
      exists t; eexists; eexists; repeat split; eauto. }
  destruct (missing_cases (field data (str "type")))
    as [E1|[[E1 [ty [Ety Nty]]]|[e E1]]].
  - destruct (handleSubmitForm_no_type h data O E1) as [t [E [S [B P]]]].
    exists t; eexists; eexists; repeat split; eauto.
  - destruct (missing_cases (field data (str "subject")))
      as [E2|[[E2 [su [Esu Nsu]]]|[e E2]]].
    + destruct (handleSubmitForm_no_subject h data O E1 E2) as [t [E [S [B P]]]].
      exists t; eexists; eexists; repeat split; eauto.
    + destruct (handleSubmitForm_built h data O E1 E2) as [t [E [S [B P]]]].
      destruct (buildCommitMessage_result
                  data (proj1 (object_not_nullish data O))
                  (proj2 (object_not_nullish data O))) as [[fd [T R]]|[N R]].
      * rewrite R in S.
        exists t; eexists; eexists; repeat split; eauto.
        right; split; [reflexivity|]. exists fd.
        destruct T as [Tt [Ts [Tu Tb]]].
        assert (CommitBuilder.type fd = ty) as -> by congruence.
        assert (CommitBuilder.subject fd = su) as -> by congruence.
        repeat split; auto.
      * assert (exists e, CommitBuilderJS.buildCommitMessage data = Throw e)
          as [e R'] by (destruct R as [R|R]; eexists; exact R).
        rewrite R' in S.
        exists t; eexists; eexists; repeat split; eauto.
    + destruct (handleSubmitForm_field_throws h data e O
                  (or_intror (conj E1 E2))) as [t [E [S [B P]]]].
      exists t; eexists; eexists; repeat split; eauto.
  - destruct (handleSubmitForm_field_throws h data e O (or_introl E1))
      as [t [E [S [B P]]]].
    exists t; eexists; eexists; repeat split; eauto.
Qed.

End SubmitCases.

Section Routing.
Context `{Platform}.
Import MessageHandler.

Lemma strict_eq_str_true (v : JSValue) (literal : jsstring) :
  strict_eq_str v literal = true <-> v = JString literal.
Proof.
  destruct v as [| |b|x|s|l|l]; simpl; try (split; discriminate).
  rewrite eqb_str_eq; split; [intros -> | intros E; injection E]; auto.
Qed.

(** A message that passes the format test is logged and handed to the
    handler of its command; the [catch] of [handleMessage] is not entered. *)
Lemma handleMessage_routed (h : Handler) (message : JSValue) :
  is_object message = true ->
  truthy (field message (str "command")) = true ->
  let command := field message (str "command") in
  handleMessage h message
  = (Log (str "Received message: " ++ template command)
       :: (if strict_eq_str command (str "webviewReady")
           then Log (str "Webview ready, loading schema...")
                  :: fst (handleLoadSchema h)
           else if strict_eq_str command (str "loadSchema")
           then fst (handleLoadSchema h)
           else if strict_eq_str command (str "submitForm")
           then fst (handleSubmitForm h (field message (str "data")))
           else [Log (str "Warning: Unknown command: " ++ template command)]),
     Ok tt).
Proof.
  intros O C; cbv zeta. unfold handleMessage; cbv zeta.
  rewrite object_guard, O, C; cbn [negb orb].
  destruct (handleLoadSchema_runs h) as [tl [v [types [El _]]]].
  destruct (handleSubmitForm_reply h (field message (str "data")))
    as [ts [c [d [Es _]]]].
  destruct (strict_eq_str (field message (str "command")) (str "webviewReady")).
  - rewrite (handleWebviewReady_runs h tl El), El; reflexivity.
  - destruct (strict_eq_str (field message (str "command")) (str "loadSchema")).
    + rewrite El; reflexivity.
    + destruct (strict_eq_str (field message (str "command")) (str "submitForm")).
      * rewrite Es; reflexivity.
      * reflexivity.
Qed.


End Routing.

Section HandlerExtras.
Context `{Platform}.
Import MessageHandler.

(** X9: [sendToWebview] never throws. With a live panel the message is
    posted once; with the panel or its webview gone nothing is posted and
    the disposal is logged; when [postMessage] throws, the error is logged
    and swallowed. *)
Theorem X9_sendToWebview_never_throws
        (h : Handler) (command : jsstring) (data : JSValue) :
  exists tail,
    sendToWebview h command data = (Send command data :: tail, Ok tt)
    /\ sent tail = [] /\ builds tail = []
    /\ posted tail = (if live h then [(command, data)] else [])
    /\ logged tail
       = [match panel h with
          | WebviewLive => str "Sent message: " ++ command
          | WebviewFails e =>
              str "Error sending message to webview: " ++ error_message e
          | _ => str "Error: Cannot send message, webview is disposed"
          end].
Proof.
  unfold sendToWebview, live.
  destruct (panel h); eexists; (split; [reflexivity|]); repeat split.
Qed.

(** X10: [handleLoadSchema] always ends normally and sends exactly one
    message, the schemaData message with the catalog the loader returned;
    its error reply is never sent. The log line gives the number of
    entries of that catalog. *)
Theorem X10_load_schema_always_answers (h : Handler) :
  exists t v types,
    handleLoadSchema h = (t, Ok tt)
    /\ snd (SchemaManager.loadSchema (host h)) = Ok v
    /\ is_catalog v
    /\ field v (str "types") = JArray types
    /\ sent t = [(str "schemaData", v)]
    /\ builds t = []
    /\ posted t = (if live h then [(str "schemaData", v)] else [])
    /\ In (str "Schema loaded with " ++ nat_to_str (length types) ++ str " types")
          (logged t).
Proof. apply handleLoadSchema_runs. Qed.

(** X11: the commands webviewReady and loadSchema are answered alike: the
    messages sent and posted are those of [handleLoadSchema]. *)
Theorem X11_ready_and_load_answer_alike (h : Handler) (message : JSValue) :
  field message (str "command") = JString (str "webviewReady")
  \/ field message (str "command") = JString (str "loadSchema") ->
  sent (fst (handleMessage h message)) = sent (fst (handleLoadSchema h))
  /\ posted (fst (handleMessage h message)) = posted (fst (handleLoadSchema h))
  /\ snd (handleMessage h message) = Ok tt.
Proof.
  intros C.
  assert (is_object message = true) as O
      by (destruct message; destruct C as [C|C]; simpl in C;
          try discriminate C; reflexivity).
  assert (truthy (field message (str "command")) = true) as T
      by (destruct C as [-> | ->]; reflexivity).
  rewrite (handleMessage_routed h message O T).
  destruct C as [-> | ->]; repeat split.
Qed.


(** X13: every submission gets exactly one reply and never an exception.
    The reply is a commitResult only when the payload's type, scope and
    subject are strings, its body is a string or falsy, and neither the
    type nor the subject trims to nothing; its text is then the message
    the typed builder formats, and the builder was called once, on that
    payload. *)
Theorem X13_commit_result_only_for_valid_forms (h : Handler) (data : JSValue) :
  exists t c d,
    handleSubmitForm h data = (t, Ok tt)
    /\ sent t = [(c, d)]
    /\ (c = str "error" \/ c = str "commitResult")
    /\ (c = str "commitResult" ->
        builds t = [data]
        /\ exists fd,
            typed_fields data fd
            /\ trim (CommitBuilder.type fd) <> []
            /\ trim (CommitBuilder.subject fd) <> []
            /\ d = JString (CommitBuilder.buildCommitMessage fd)).
Proof.
  destruct (is_object data) eqn:O.
  2:{ destruct (handleSubmitForm_not_object h data O) as [t [E [S [B P]]]].
      exists t; eexists; eexists; repeat split; eauto; discriminate. }
  destruct (missing_cases (field data (str "type")))
    as [E1|[[E1 [ty [Ety Nty]]]|[e E1]]].
  - destruct (handleSubmitForm_no_type h data O E1) as [t [E [S [B P]]]].
    exists t; eexists; eexists; repeat split; eauto; discriminate.
  - destruct (missing_cases (field data (str "subject")))
      as [E2|[[E2 [su [Esu Nsu]]]|[e E2]]].
    + destruct (handleSubmitForm_no_subject h data O E1 E2) as [t [E [S [B P]]]].
      exists t; eexists; eexists; repeat split; eauto; discriminate.
    + destruct (handleSubmitForm_built h data O E1 E2) as [t [E [S [B P]]]].
      destruct (buildCommitMessage_result
                  data (proj1 (object_not_nullish data O))
                  (proj2 (object_not_nullish data O))) as [[fd [T R]]|[N R]].
      * rewrite R in S.
        exists t; eexists; eexists; repeat split; eauto.
        exists fd. destruct T as [Tt [Ts [Tu Tb]]].
        assert (CommitBuilder.type fd = ty) as Hty by congruence.
        assert (CommitBuilder.subject fd = su) as Hsu by congruence.
        rewrite Hty, Hsu; repeat split; auto; congruence.
      * assert (exists e, CommitBuilderJS.buildCommitMessage data = Throw e)
          as [e R'] by (destruct R as [R|R]; eexists; exact R).
        rewrite R' in S.
        exists t; eexists; eexists; repeat split; eauto; discriminate.
    + destruct (handleSubmitForm_field_throws h data e O
                  (or_intror (conj E1 E2))) as [t [E [S [B P]]]].
      exists t; eexists; eexists; repeat split; eauto; discriminate.
  - destruct (handleSubmitForm_field_throws h data e O (or_introl E1))
      as [t [E [S [B P]]]].
    exists t; eexists; eexists; repeat split; eauto; discriminate.
Qed.

(** X14: the reasons a submission is turned down, in the order they are
    tested. A payload that is not an object is answered 'Data form tidak
    valid'; an object whose type is falsy or trims to nothing is answered
    'Type commit harus diisi', whatever its subject; an object with a
    usable type whose subject is falsy or trims to nothing is answered
    'Subject commit harus diisi'. The builder is called in none of them. *)
Theorem X14_rejection_reasons_in_order (h : Handler) (data : JSValue) :
  let t := fst (handleSubmitForm h data) in
  (is_object data = false ->
   sent t = [(str "error", JString (str "Data form tidak valid"))]
   /\ builds t = [])
  /\ (is_object data = true ->
      truthy (field data (str "type")) = false
      \/ blank (field data (str "type")) ->
      sent t = [(str "error", JString (str "Type commit harus diisi"))]
      /\ builds t = [])
  /\ (is_object data = true ->
      forall type, field data (str "type") = JString type -> trim type <> [] ->
      truthy (field data (str "subject")) = false
      \/ blank (field data (str "subject")) ->
      sent t = [(str "error", JString (str "Subject commit harus diisi"))]
      /\ builds t = []).
Proof.
  cbv zeta; split; [|split].
  - intros O.
    destruct (handleSubmitForm_not_object h data O) as [t [E [S [B P]]]].
    rewrite E; auto.
  - intros O Hty.
    assert (missing (field data (str "type")) = ([], Ok true)) as M
        by (destruct Hty; [apply missing_falsy | apply missing_blank]; auto).
    destruct (handleSubmitForm_no_type h data O M) as [t [E [S [B P]]]].
    rewrite E; auto.
  - intros O type Ety Nty Hsu.
    assert (missing (field data (str "subject")) = ([], Ok true)) as M
        by (destruct Hsu; [apply missing_falsy | apply missing_blank]; auto).
    destruct (handleSubmitForm_no_subject h data O) as [t [E [S [B P]]]];
      [rewrite Ety; apply missing_present, Nty | exact M |].
    rewrite E; auto.
Qed.

(** X15: a submitForm message is answered as [handleSubmitForm] answers
    its [data]: the same messages are sent and posted and the builder sees
    the same calls; a message without [data] is answered 'Data form tidak
    valid'. *)
Theorem X15_submit_message_is_delegated (h : Handler) (message : JSValue) :
  field message (str "command") = JString (str "submitForm") ->
  let inner := fst (handleSubmitForm h (field message (str "data"))) in
  sent (fst (handleMessage h message)) = sent inner
  /\ posted (fst (handleMessage h message)) = posted inner
  /\ builds (fst (handleMessage h message)) = builds inner
  /\ snd (handleMessage h message) = Ok tt
  /\ (field message (str "data") = JUndefined ->
      sent (fst (handleMessage h message))
      = [(str "error", JString (str "Data form tidak valid"))]).
Proof.
  intros C; cbv zeta.
  assert (is_object message = true) as O
      by (destruct message; simpl in C; try discriminate C; reflexivity).
  assert (truthy (field message (str "command")) = true) as T
      by (rewrite C; reflexivity).
  rewrite (handleMessage_routed h message O T), C.
  repeat split.
  intros D; cbn [fst strict_eq_str eqb_str]. rewrite D.
  destruct (handleSubmitForm_not_object h JUndefined eq_refl) as [t [E [S _]]].
  rewrite E; exact S.
Qed.

End HandlerExtras.

Lemma X11_ready_and_load_answer_alike_witness :
  MessageHandler.sent
    (fst (@MessageHandler.handleMessage Reference.platform
            (MoreExamples.custom_handler MessageHandler.WebviewLive)
            Webview.ready))
  = [(str "schemaData", Examples.custom_catalog)].
Proof.
  rewrite (proj1 (X11_ready_and_load_answer_alike (H := Reference.platform)
                    (MoreExamples.custom_handler MessageHandler.WebviewLive)
                    Webview.ready (or_introl eq_refl))).
  vm_compute; reflexivity.
Defined.

Lemma X13_commit_result_only_for_valid_forms_witness :
  exists t c d,
    @MessageHandler.handleSubmitForm Reference.platform
      (Examples.handler MessageHandler.WebviewLive)
      (form_object Examples.feat_form)
    = (t, Ok tt)
    /\ MessageHandler.sent t = [(c, d)]
    /\ (c = str "error" \/ c = str "commitResult")
    /\ (c = str "commitResult" ->
        MessageHandler.builds t = [form_object Examples.feat_form]
        /\ exists fd,
            typed_fields (form_object Examples.feat_form) fd
            /\ trim (CommitBuilder.type fd) <> []
            /\ trim (CommitBuilder.subject fd) <> []
            /\ d = JString (@CommitBuilder.buildCommitMessage
                              Reference.platform fd)).
Proof.
  apply (X13_commit_result_only_for_valid_forms (H := Reference.platform)
           (Examples.handler MessageHandler.WebviewLive)
           (form_object Examples.feat_form)).
Defined.

Lemma X14_rejection_reasons_in_order_witness :
  MessageHandler.sent
    (fst (@MessageHandler.handleSubmitForm Reference.platform
            (Examples.handler MessageHandler.WebviewLive) (JObject [])))
  = [(str "error", JString (str "Type commit harus diisi"))]
  /\ MessageHandler.sent
       (fst (@MessageHandler.handleSubmitForm Reference.platform
               (Examples.handler MessageHandler.WebviewLive)
               (JObject [(str "type", JString (str "feat"));
                         (str "subject", JString (str "  "))])))
     = [(str "error", JString (str "Subject commit harus diisi"))]
  /\ MessageHandler.sent
       (fst (@MessageHandler.handleSubmitForm Reference.platform
               (Examples.handler MessageHandler.WebviewLive)
               (JString (str "feat"))))
     = [(str "error", JString (str "Data form tidak valid"))].
Proof.
  split; [|split].
  - apply (proj1 (proj2 (X14_rejection_reasons_in_order
                           (H := Reference.platform)
                           (Examples.handler MessageHandler.WebviewLive)
                           (JObject [])))).
    + reflexivity.
    + left; reflexivity.
  - apply (proj2 (proj2 (X14_rejection_reasons_in_order
                           (H := Reference.platform)
                           (Examples.handler MessageHandler.WebviewLive)
                           (JObject [(str "type", JString (str "feat"));
                                     (str "subject", JString (str "  "))])))
             eq_refl (str "feat")).
    + reflexivity.
    + discriminate.
    + right; right; exists (str "  "); split; reflexivity.
  - apply (proj1 (X14_rejection_reasons_in_order
                    (H := Reference.platform)
                    (Examples.handler MessageHandler.WebviewLive)
                    (JString (str "feat")))).
    reflexivity.
Defined.

Lemma X15_submit_message_is_delegated_witness :
  MessageHandler.sent
    (fst (@MessageHandler.handleMessage Reference.platform
            (Examples.handler MessageHandler.WebviewLive)
            (MoreExamples.submit_message (form_object Examples.feat_form))))
  = [(str "commitResult", JString (str "feat(auth): tambah login"))].
Proof.
  rewrite (proj1 (X15_submit_message_is_delegated (H := Reference.platform)
                    (Examples.handler MessageHandler.WebviewLive)
                    (MoreExamples.submit_message
                       (form_object Examples.feat_form)) eq_refl)).
  vm_compute; reflexivity.
Defined.

(* ================================================================= *)
(** ** The page and the extension together *)

Section PageFacts.
Context `{Platform}.
Import Webview.

Lemma appendOptions_objects (types : list JSValue) :
  Forall is_commit_type types ->
  appendOptions types
  = (map (fun t => AppendOption (field t (str "id")) (field t (str "label")))
         types, None).
Proof.
  induction 1 as [|t rest [props [id [label [-> _]]]] _ IH]; [reflexivity|].
  cbn [appendOptions get map field]. rewrite IH; reflexivity.
Qed.

Lemma handleSchemaData_catalog (v : JSValue) (types : list JSValue) :
  is_catalog v ->
  field v (str "types") = JArray types ->
  handleSchemaData v
  = (SetInnerHTML typeSelect placeholder
       :: map (fun t => AppendOption (field t (str "id")) (field t (str "label")))
              types, None).
Proof.
  intros [props [types' [-> [E F]]]] Ef.
  unfold handleSchemaData. rewrite Ef; cbn [truthy negb orb isArray].
  cbn [field] in Ef. rewrite E in Ef; injection Ef as <-.
  rewrite (appendOptions_objects _ F); reflexivity.
Qed.

Lemma onMessage_delivered (command : jsstring) (data : JSValue) :
  onMessage (delivered (command, data))
  = if eqb_str command (str "schemaData") then handleSchemaData data
    else if eqb_str command (str "commitResult")
    then (handleCommitResult data, None)
    else if eqb_str command (str "error") then (handleError data, None)
    else ([], None).
Proof. reflexivity. Qed.

End PageFacts.

Section PageExtras.
Context `{Platform}.
Import Webview.

(** X16: the page accepts every schema that [validateSchema] accepts: it
    shows no error and throws nothing, resets the select to its
    placeholder and appends one option per entry, in order, with the
    entry's id as value and its label as text. An element that is null
    stops the loop with a TypeError after the options before it, which is
    what the extension's validation rules out. *)
Theorem X16_page_accepts_validated_schemas
        (v : JSValue) (types : list JSValue) :
  (SchemaManager.validateSchema v = true ->
   field v (str "types") = JArray types ->
   handleSchemaData v
   = (SetInnerHTML typeSelect placeholder
        :: map (fun t => AppendOption (field t (str "id"))
                                      (field t (str "label"))) types,
      None))
  /\ (forall before after,
         Forall is_commit_type before ->
         handleSchemaData
           (JObject [(str "types", JArray (before ++ JNull :: after))])
         = (SetInnerHTML typeSelect placeholder
              :: map (fun t => AppendOption (field t (str "id"))
                                            (field t (str "label"))) before,
            Some (TypeError_nullish (str "id")))).
Proof.
  split.
  - intros V Ef. apply handleSchemaData_catalog; [|exact Ef].
    apply validateSchema_catalog, V.
  - intros before after F.
    unfold handleSchemaData; cbn [field lookup].
    change (eqb_str (str "types") (str "types")) with true; cbn iota.
    cbn [truthy negb orb isArray].
    assert (appendOptions (before ++ JNull :: after)
            = (map (fun t => AppendOption (field t (str "id"))
                                          (field t (str "label"))) before,
               Some (TypeError_nullish (str "id")))) as ->; [|reflexivity].
    induction F as [|t rest [props [id [label [-> _]]]] _ IH]; [reflexivity|].
    cbn [app appendOptions get map field]. rewrite IH; reflexivity.
Qed.

(** X17: a submission end to end. The page posts nothing when the type
    value is empty or the subject trims to nothing. Otherwise it posts one
    submitForm message and, the panel being live, the extension answers
    it with one message: when the type does not trim to nothing, the
    commitResult with the text formatted from the four values, which the
    page writes into its result block; when the type is white space only,
    the error 'Type commit harus diisi'. *)
Theorem X17_submission_round_trip
        (h : MessageHandler.Handler) (fd : CommitBuilder.FormData) :
  live h = true ->
  let ops := onSubmit (CommitBuilder.type fd) (CommitBuilder.scope fd)
                      (CommitBuilder.subject fd) (CommitBuilder.body fd) in
  let message := MoreExamples.submit_message (form_object fd) in
  let text := CommitBuilder.buildCommitMessage fd in
  (CommitBuilder.type fd = [] \/ trim (CommitBuilder.subject fd) = [] ->
   outbox ops = [])
  /\ (CommitBuilder.type fd <> [] -> trim (CommitBuilder.subject fd) <> [] ->
      outbox ops = [message]
      /\ (trim (CommitBuilder.type fd) <> [] ->
          MessageHandler.posted (fst (MessageHandler.handleMessage h message))
          = [(str "commitResult", JString text)]
          /\ MessageHandler.builds (fst (MessageHandler.handleMessage h message))
             = [form_object fd]
          /\ onMessage (delivered (str "commitResult", JString text))
             = ([SetTextContent commitMessagePre (JString text);
                 ClassRemove resultDiv (str "hidden");
                 ClassAdd errorDiv (str "hidden");
                 ScrollIntoView resultDiv], None))
      /\ (trim (CommitBuilder.type fd) = [] ->
          MessageHandler.posted (fst (MessageHandler.handleMessage h message))
          = [(str "error", JString (str "Type commit harus diisi"))]
          /\ MessageHandler.builds (fst (MessageHandler.handleMessage h message))
             = [])).
Proof.
  intros L; cbv zeta. destruct fd as [ty sc su b]; cbn [CommitBuilder.type
    CommitBuilder.scope CommitBuilder.subject CommitBuilder.body].
  assert (forall inner : Trace,
             fst (MessageHandler.handleSubmitForm h
                    (form_object
                       {| CommitBuilder.type := ty; CommitBuilder.scope := sc;
                          CommitBuilder.subject := su; CommitBuilder.body := b |}))
             = inner ->
             fst (MessageHandler.handleMessage h
                    (MoreExamples.submit_message
                       (form_object
                          {| CommitBuilder.type := ty; CommitBuilder.scope := sc;
                             CommitBuilder.subject := su;
                             CommitBuilder.body := b |})))
             = Log (str "Received message: submitForm") :: inner) as Route.
  { intros inner <-.
    rewrite (handleMessage_routed
               h (MoreExamples.submit_message
                    (form_object
                       {| CommitBuilder.type := ty; CommitBuilder.scope := sc;
                          CommitBuilder.subject := su;
                          CommitBuilder.body := b |}))
               eq_refl eq_refl).
    reflexivity. }
  split.
  - intros [-> | E]; unfold onSubmit; [reflexivity|].
    rewrite E. destruct (truthy_str ty); reflexivity.
  - intros Nty Nsu. split; [|split].
    + unfold onSubmit.
      apply truthy_str_true in Nty, Nsu; rewrite Nty, Nsu; reflexivity.
    + intros Tty.
      destruct (handleSubmitForm_valid
                  h (form_object
                       {| CommitBuilder.type := ty; CommitBuilder.scope := sc;
                          CommitBuilder.subject := su; CommitBuilder.body := b |})
                  ty sc su b eq_refl Tty eq_refl Nsu eq_refl eq_refl)
        as [tr [E [B [S P]]]].
      rewrite (Route tr) by (rewrite E; reflexivity).
      rewrite posted_cons, builds_cons, P, B, L; repeat split.
    + intros Tty.
      destruct (handleSubmitForm_no_type
                  h (form_object
                       {| CommitBuilder.type := ty; CommitBuilder.scope := sc;
                          CommitBuilder.subject := su; CommitBuilder.body := b |})
                  eq_refl) as [tr [E [S [B P]]]].
      { apply missing_blank; right; exists ty; auto. }
      rewrite (Route tr) by (rewrite E; reflexivity).
      rewrite posted_cons, builds_cons, P, B, S, L; repeat split.
Qed.

(** X18: the start of a session end to end. The page's first message,
    webviewReady, is answered (the panel being live) by one schemaData
    message carrying a catalog, whatever the files hold; on receiving it
    the page shows no error and fills the select with the placeholder and
    one option per entry of that catalog, each with a non-empty string
    as value. *)
Theorem X18_ready_fills_the_select (h : MessageHandler.Handler) :
  live h = true ->
  exists v types,
    MessageHandler.posted (fst (MessageHandler.handleMessage h ready))
    = [(str "schemaData", v)]
    /\ snd (SchemaManager.loadSchema (MessageHandler.host h)) = Ok v
    /\ field v (str "types") = JArray types
    /\ onMessage (delivered (str "schemaData", v))
       = (SetInnerHTML typeSelect placeholder
            :: map (fun t => AppendOption (field t (str "id"))
                                          (field t (str "label"))) types,
          None)
    /\ Forall (fun t => exists id, field t (str "id") = JString id /\ id <> [])
              types.
Proof.
  intros L.
  destruct (handleLoadSchema_runs h)
    as [tl [v [types [El [Ev [C [Ef [Sl [Bl [Pl _]]]]]]]]]].
  exists v, types.
  rewrite (handleMessage_routed h ready eq_refl eq_refl).
  cbn [field lookup ready].
  change (eqb_str (str "command") (str "command")) with true; cbn iota.
  change (MessageHandler.strict_eq_str (JString (str "webviewReady"))
                                       (str "webviewReady")) with true.
  cbn iota. rewrite El; cbn [fst].
  rewrite !posted_cons, Pl, L.
  repeat split; auto.
  - rewrite onMessage_delivered.
    change (eqb_str (str "schemaData") (str "schemaData")) with true; cbn iota.
    apply handleSchemaData_catalog; assumption.
  - destruct C as [props [types' [-> [E F]]]].
    cbn [field] in Ef. rewrite E in Ef; injection Ef as <-.
    eapply Forall_impl; [|exact F].
    intros t [props' [id [label [-> [Ei [Ni _]]]]]].
    exists id; auto.
Qed.

End PageExtras.

Section Nonce.
Import WebviewProvider.

Lemma charAt_possible (i : nat) :
  Forall (fun c => is_alphanumeric c = true) (charAt possible i)
  /\ (i < 62 -> length (charAt possible i) = 1).
Proof.
  unfold charAt. split.
  - destruct (nth_error possible i) as [c|] eqn:E; [|constructor].
    constructor; [|constructor].
    assert (Forall (fun c => is_alphanumeric c = true) possible) as F
        by (vm_compute; repeat constructor).
    rewrite Forall_forall in F. apply F. eapply nth_error_In, E.
  - intros Hi. destruct (nth_error possible i) eqn:E; [reflexivity|].
    apply nth_error_None in E.
    change (length possible) with 62 in E. lia.
Qed.

Lemma getNonce_loop_spec (draw : nat -> nat) (remaining i : nat) (text : jsstring) :
  Forall (fun c => is_alphanumeric c = true) text ->
  Forall (fun c => is_alphanumeric c = true) (getNonce_loop draw i remaining text)
  /\ length (getNonce_loop draw i remaining text) <= length text + remaining
  /\ ((forall k, i <= k < i + remaining -> draw k < 62) ->
      length (getNonce_loop draw i remaining text) = length text + remaining).
Proof.
  revert i text; induction remaining as [|n IH]; intros i text F; simpl.
  - repeat split; auto; lia.
  - destruct (charAt_possible (draw i)) as [Fc Lc].
    assert (length (charAt possible (draw i)) <= 1) as Lc'
        by (unfold charAt; destruct (nth_error possible (draw i)); simpl; lia).
    destruct (IH (S i) (text ++ charAt possible (draw i)))
      as [F' [L' E']]; [apply Forall_app; auto|].
    rewrite length_app in L', E'.
    repeat split; auto; [lia|].
    intros D. rewrite E' by (intros k Hk; apply D; lia).
    rewrite Lc by (apply D; lia). lia.
Qed.

(** X19: the nonce is made of letters and digits only and has at most 32
    characters; it has exactly 32 when every drawn index is below the
    length of the alphabet, 62. *)
Theorem X19_nonce_is_alphanumeric (draw : nat -> nat) :
  Forall (fun c => is_alphanumeric c = true) (getNonce draw)
  /\ length (getNonce draw) <= 32
  /\ ((forall k, k < 32 -> draw k < 62) -> length (getNonce draw) = 32).
Proof.
  destruct (getNonce_loop_spec draw 32 0 [] (Forall_nil _)) as [F [L E]].
  repeat split; auto.
  intros D; apply E. intros k Hk; apply D; lia.
Qed.

End Nonce.

Lemma X16_page_accepts_validated_schemas_witness :
  @Webview.handleSchemaData Reference.platform Examples.custom_catalog
  = ([Webview.SetInnerHTML Webview.typeSelect Webview.placeholder;
      Webview.AppendOption (JString (str "wip"))
                           (JString (str "Work in progress"))], None)
  /\ @Webview.handleSchemaData Reference.platform Examples.empty_catalog
     = ([Webview.SetInnerHTML Webview.typeSelect Webview.placeholder], None).
Proof.
  split.
  - apply (proj1 (X16_page_accepts_validated_schemas
                    (H := Reference.platform) Examples.custom_catalog
                    [SchemaManager.commitType (str "wip")
                                              (str "Work in progress")]));
      reflexivity.
  - apply (proj1 (X16_page_accepts_validated_schemas
                    (H := Reference.platform) Examples.empty_catalog []));
      reflexivity.
Defined.

Lemma X17_submission_round_trip_witness :
  MessageHandler.posted
    (fst (@MessageHandler.handleMessage Reference.platform
            (Examples.handler MessageHandler.WebviewLive)
            (MoreExamples.submit_message (form_object MoreExamples.padded_form))))
  = [(str "commitResult",
      JString (str "feat(auth): tambah login" ++ [10; 10]%N ++ str "rinci"))]
  /\ MessageHandler.posted
       (fst (@MessageHandler.handleMessage Reference.platform
               (Examples.handler MessageHandler.WebviewLive)
               (MoreExamples.submit_message
                  (form_object MoreExamples.blank_type_form))))
     = [(str "error", JString (str "Type commit harus diisi"))].
Proof.
  split.
  - apply (proj2 (X17_submission_round_trip (H := Reference.platform)
                    (Examples.handler MessageHandler.WebviewLive)
                    MoreExamples.padded_form eq_refl));
      discriminate.
  - apply (proj2 (X17_submission_round_trip (H := Reference.platform)
                    (Examples.handler MessageHandler.WebviewLive)
                    MoreExamples.blank_type_form eq_refl));
      try discriminate; reflexivity.
Defined.

Lemma X18_ready_fills_the_select_witness :
  exists v types,
    MessageHandler.posted
      (fst (@MessageHandler.handleMessage Reference.platform
              (MoreExamples.custom_handler MessageHandler.WebviewLive)
              Webview.ready))
    = [(str "schemaData", v)]
    /\ snd (@SchemaManager.loadSchema Reference.platform
              (MessageHandler.host
                 (MoreExamples.custom_handler MessageHandler.WebviewLive)))
       = Ok v
    /\ field v (str "types") = JArray types
    /\ @Webview.onMessage Reference.platform (delivered (str "schemaData", v))
       = (Webview.SetInnerHTML Webview.typeSelect Webview.placeholder
            :: map (fun t => Webview.AppendOption (field t (str "id"))
                                                  (field t (str "label"))) types,
          None)
    /\ Forall (fun t => exists id, field t (str "id") = JString id /\ id <> [])
              types.
Proof.
  apply (X18_ready_fills_the_select (H := Reference.platform)
           (MoreExamples.custom_handler MessageHandler.WebviewLive)).
  reflexivity.
Defined.

Lemma X19_nonce_is_alphanumeric_witness :
  length (WebviewProvider.getNonce MoreExamples.walk) = 32.
Proof.
  apply (X19_nonce_is_alphanumeric MoreExamples.walk).
  intros k _. unfold MoreExamples.walk. apply Nat.mod_upper_bound. discriminate.
Defined.
